(** * Finance assistant: CSV export helper and settings panel

  A shallow embedding of [utils/export_data.py] and of the theme toggle of
  [ui/settings_panel.py], with the properties of the specification proved
  over it.

  Python text is modelled by [string] (a sequence of bytes; every character
  the CSV writer treats specially is ASCII).  Stateful code is a state and
  exception monad over an explicit [world]: the clock, the caller's objects,
  the file system and what the operating system answers to [open] and to a
  write. *)

From Stdlib Require Import String Ascii List Arith Bool Lia.
From stdpp Require Import base gmap strings.

Import ListNotations.
Local Open Scope string_scope.
Local Open Scope list_scope.

#[local] Arguments String.append !s1 s2 : simpl nomatch.

(** ** Text helpers *)

Module Text.

Definition quote_char : ascii := "034"%char.
Definition CR : ascii := "013"%char.
Definition LF : ascii := "010"%char.

Definition chr (c : ascii) : string := String c EmptyString.

Definition is_empty (s : string) : bool :=
  match s with EmptyString => true | String _ _ => false end.

Fixpoint mem_char (c : ascii) (s : string) : bool :=
  match s with
  | EmptyString => false
  | String d s' => Ascii.eqb c d || mem_char c s'
  end.

(** [sep.join(parts)] *)
Fixpoint join (sep : string) (parts : list string) : string :=
  match parts with
  | [] => EmptyString
  | [p] => p
  | p :: ps => p +:+ sep +:+ join sep ps
  end.

Fixpoint concat_all (parts : list string) : string :=
  match parts with
  | [] => EmptyString
  | p :: ps => p +:+ concat_all ps
  end.

Definition is_digit (c : ascii) : bool :=
  let n := nat_of_ascii c in Nat.leb 48 n && Nat.leb n 57.

Definition digit (d : nat) : ascii := ascii_of_nat (48 + d mod 10).

(** The [width] low decimal digits of [n], most significant first: what
    the zero padded directives of [strftime] print for a number below
    [10 ^ width]. *)
Fixpoint zpad (width n : nat) : string :=
  match width with
  | 0 => EmptyString
  | S w => zpad w (n / 10) +:+ chr (digit n)
  end.

Definition all_digits (s : string) : bool :=
  forallb is_digit (list_ascii_of_string s).

(** Reading a decimal numeral back, most significant digit first. *)
Fixpoint read_decimal (acc : nat) (s : string) : nat :=
  match s with
  | EmptyString => acc
  | String c s' => read_decimal (10 * acc + (nat_of_ascii c - 48)) s'
  end.

(** The lines of a text as a reader with universal newlines sees them:
    a line ends at LF, at CR, or at CR LF; the terminators are dropped and
    a last line without terminator still counts.  [after_cr] remembers
    that the previous character was a CR, so that a following LF belongs
    to the same terminator; [cur] is the current line, reversed. *)
Fixpoint lines_from (after_cr : bool) (cur : list ascii) (s : string)
  : list string :=
  match s with
  | EmptyString =>
      match cur with
      | [] => []
      | _ => [string_of_list_ascii (rev cur)]
      end
  | String c s' =>
      if Ascii.eqb c LF then
        if after_cr then lines_from false cur s'
        else string_of_list_ascii (rev cur) :: lines_from false [] s'
      else if Ascii.eqb c CR then
        string_of_list_ascii (rev cur) :: lines_from true [] s'
      else lines_from false (c :: cur) s'
  end.

Definition lines (s : string) : list string := lines_from false [] s.

Definition has_line_break (s : string) : bool := mem_char CR s || mem_char LF s.

End Text.

(** ** utils/export_data.py *)

Module ExportData.
Import Text.

(** *** Exceptions *)

(** Which [except] clause of [export_transactions] an exception is an
    instance of.  Everything the body can raise derives from [Exception]. *)
Inductive exc_family : Type :=
| IsFileNotFoundError
| IsPermissionError
| IsOtherException.

Record exn : Type := mkExn {
  exc_family_of : exc_family;
  exc_class_name : string;     (* e.__class__.__name__ *)
  exc_str : string             (* str(e) *)
}.

Inductive exc_class : Type := FileNotFoundError | PermissionError | Exception.

Definition isinstance (e : exn) (c : exc_class) : bool :=
  match c, exc_family_of e with
  | Exception, _ => true
  | FileNotFoundError, IsFileNotFoundError => true
  | PermissionError, IsPermissionError => true
  | _, _ => false
  end.

Definition ValueError (text : string) : exn :=
  mkExn IsOtherException "ValueError" text.

(** *** The caller's objects *)

(** A transaction is a dict from field names to text, in insertion order,
    as the settings panel builds it (Date, Category, Description, Amount,
    Type, all of them text). *)
Definition record : Type := list (string * string).

Definition loc : Type := nat.

(** [transactions] is passed by reference: a list object whose items are
    references to dict objects.  Every reference is live and of its
    declared type (the docstring's list of transaction dictionaries). *)
Record heap : Type := mkHeap {
  list_at : loc -> list loc;
  dict_at : loc -> record
}.

Definition keys (d : record) : list string := map fst d.

(** [d.get(key, default)] *)
Fixpoint dict_get (d : record) (key default : string) : string :=
  match d with
  | [] => default
  | (k, v) :: d' => if String.eqb k key then v else dict_get d' key default
  end.

Definition has_key (ks : list string) (k : string) : bool :=
  existsb (String.eqb k) ks.

(** *** The clock *)

Record datetime : Type := mkDatetime {
  year : nat; month : nat; day : nat;
  hour : nat; minute : nat; second : nat
}.

(** [dt.strftime("%Y%m%d_%H%M%S")] *)
Definition strftime (dt : datetime) : string :=
  zpad 4 (year dt) +:+ zpad 2 (month dt) +:+ zpad 2 (day dt) +:+ "_"
  +:+ zpad 2 (hour dt) +:+ zpad 2 (minute dt) +:+ zpad 2 (second dt).

(** *** The world *)

Record world : Type := mkWorld {
  w_now : datetime;                          (* datetime.now() *)
  w_heap : heap;
  w_files : gmap string string;              (* path -> content *)
  w_open_fault : string -> option exn;       (* what open(path, "w") raises *)
  w_write_fault : string -> string -> option exn
                                             (* what writing a chunk to path raises *)
}.

Definition set_files (fs : gmap string string) (w : world) : world :=
  mkWorld (w_now w) (w_heap w) fs (w_open_fault w) (w_write_fault w).

(** *** State and exception monad *)

Definition M (A : Type) : Type := world -> world * (exn + A).

Definition ret {A} (a : A) : M A := fun w => (w, inr a).
Definition raise {A} (e : exn) : M A := fun w => (w, inl e).
Definition bind {A B} (m : M A) (k : A -> M B) : M B :=
  fun w =>
    match m w with
    | (w', inr a) => k a w'
    | (w', inl e) => (w', inl e)
    end.

Declare Scope py_scope.
Delimit Scope py_scope with py.
Notation "x <- c ;; k" := (bind c (fun x => k))
  (at level 100, c at next level, right associativity) : py_scope.
Notation "c ;;; k" := (bind c (fun _ => k))
  (at level 100, right associativity) : py_scope.
Local Open Scope py_scope.

Definition except_clause (A : Type) : Type := exc_class * (exn -> M A).

(** The first clause whose class the exception is an instance of handles
    it; with no such clause the exception propagates. *)
Fixpoint dispatch {A} (clauses : list (except_clause A)) (e : exn) : M A :=
  match clauses with
  | [] => raise e
  | (c, handler) :: rest =>
      if isinstance e c then handler e else dispatch rest e
  end.

Definition try_except {A} (body : M A) (clauses : list (except_clause A)) : M A :=
  fun w =>
    match body w with
    | (w', inl e) => dispatch clauses e w'
    | (w', inr a) => (w', inr a)
    end.

(** *** Primitive operations *)

Definition datetime_now : M datetime := fun w => (w, inr (w_now w)).
Definition read_list (l : loc) : M (list loc) := fun w => (w, inr (list_at (w_heap w) l)).
Definition read_dict (l : loc) : M record := fun w => (w, inr (dict_at (w_heap w) l)).

Definition file : Type := string.   (* an open file, named by its path *)

(** [open(path, "w", newline="")]: creates or truncates the file. *)
Definition open_w (path : string) : M file :=
  fun w =>
    match w_open_fault w path with
    | Some e => (w, inl e)
    | None => (set_files (<[path := EmptyString]> (w_files w)) w, inr path)
    end.

(** [file.write(data)]; with [newline=""] nothing is translated.  A write
    the system refuses raises and, here, leaves the file as it was before
    that write.  The real file is buffered and flushed in blocks, so after
    a refused write it may hold any part of what was written so far: no
    property below speaks of the content of the file after a refused
    write. *)
Definition file_write (f : file) (data : string) : M unit :=
  fun w =>
    match w_write_fault w f data with
    | Some e => (w, inl e)
    | None =>
        (set_files (<[f := default EmptyString (w_files w !! f) +:+ data]> (w_files w)) w,
         inr tt)
    end.

(** [with open(path, "w", newline="") as file: body].  Leaving the block
    closes the file; a write that the system refuses, also when the data
    is only flushed at the close, is a fault of [file_write]. *)
Definition with_open {A} (path : string) (body : file -> M A) : M A :=
  f <- open_w path ;; body f.

(** *** csv.writer in the default (excel) dialect *)

Definition delimiter : ascii := ","%char.
Definition lineterminator : string := String CR (String LF EmptyString).

Definition special (c : ascii) : bool :=
  Ascii.eqb c delimiter || Ascii.eqb c quote_char || mem_char c lineterminator.

Fixpoint needs_quotes (s : string) : bool :=
  match s with
  | EmptyString => false
  | String c s' => special c || needs_quotes s'
  end.

(** doublequote: every quote character of the field is written twice *)
Fixpoint double_quotes (s : string) : string :=
  match s with
  | EmptyString => EmptyString
  | String c s' =>
      if Ascii.eqb c quote_char
      then String quote_char (String quote_char (double_quotes s'))
      else String c (double_quotes s')
  end.

(** QUOTE_MINIMAL *)
Definition csv_field (s : string) : string :=
  if needs_quotes s
  then chr quote_char +:+ double_quotes s +:+ chr quote_char
  else s.

(** The fields of one record joined by the delimiter; a record that
    would come out empty although it has a field (a lone empty field) is
    written as a pair of quotes. *)
Definition csv_join (fields : list string) : string :=
  let rec := join (chr delimiter) (map csv_field fields) in
  if Nat.ltb 0 (List.length fields) && is_empty rec
  then chr quote_char +:+ chr quote_char
  else rec.

Definition csv_record (fields : list string) : string :=
  csv_join fields +:+ lineterminator.

Definition writer_writerow (f : file) (fields : list string) : M unit :=
  file_write f (csv_record fields).

(** *** csv.DictWriter (restval "", extrasaction "raise") *)

Record DictWriter : Type := mkDictWriter {
  dw_file : file;
  fieldnames : list string
}.

Definition restval : string := EmptyString.

(** [repr] of a field name, for names without quotes or escapes.  The
    offending names are listed here in the order of the row; Python lists
    them in the order of a set. *)
Definition py_repr (s : string) : string := "'" +:+ s +:+ "'".

Definition dict_to_list (dw : DictWriter) (rowdict : record) : M (list string) :=
  let wrong_fields :=
    List.filter (fun k => negb (has_key (fieldnames dw) k)) (keys rowdict) in
  match wrong_fields with
  | _ :: _ =>
      raise (ValueError ("dict contains fields not in fieldnames: "
                         +:+ join ", " (map py_repr wrong_fields)))
  | [] => ret (map (fun key => dict_get rowdict key restval) (fieldnames dw))
  end.

Definition writerow (dw : DictWriter) (rowdict : record) : M unit :=
  fields <- dict_to_list dw rowdict ;;
  writer_writerow (dw_file dw) fields.

Definition writeheader (dw : DictWriter) : M unit :=
  let header := combine (fieldnames dw) (fieldnames dw) in
  writerow dw header.

(** Rows are converted and written one at a time, so the rows before an
    offending one reach the file. *)
Fixpoint writerows (dw : DictWriter) (rowdicts : list loc) : M unit :=
  match rowdicts with
  | [] => ret tt
  | l :: rest =>
      rowdict <- read_dict l ;;
      writerow dw rowdict ;;;
      writerows dw rest
  end.

(** *** export_transactions *)

(** Truthiness of the [file_path] argument: [None] and the empty text are
    false. *)
Definition truthy (file_path : option string) : bool :=
  match file_path with
  | None => false
  | Some p => negb (is_empty p)
  end.

Definition default_filename (timestamp : string) : string :=
  "transactions_export_" +:+ timestamp +:+ ".csv".

Definition no_transactions_message : string := "No transactions to export".

Definition missing_directory_message (file_path : string) : string :=
  "Error: The directory for '" +:+ file_path +:+ "' does not exist.".

Definition permission_denied_message (file_path : string) : string :=
  "Error: Permission denied to write to '" +:+ file_path +:+ "'.".

Definition other_error_message (e : exn) : string :=
  "Error exporting transactions: " +:+ exc_class_name e +:+ ": " +:+ exc_str e.

(** The rebinding of [file_path] at the top of the function. *)
Definition resolve_path (file_path : option string) : M string :=
  if negb (truthy file_path) then
    now <- datetime_now ;;
    let timestamp := strftime now in
    ret (default_filename timestamp)
  else ret (default EmptyString file_path).

Definition export_body (transactions : loc) (file_path : string) : M (bool * string) :=
  with_open file_path (fun file =>
    txs <- read_list transactions ;;
    match txs with
    | [] => ret (false, no_transactions_message)
    | first :: _ =>
        first_dict <- read_dict first ;;
        let writer := mkDictWriter file (keys first_dict) in
        writeheader writer ;;;
        writerows writer txs ;;;
        ret (true, file_path)
    end).

Definition export_handlers (file_path : string) : list (except_clause (bool * string)) :=
  [ (FileNotFoundError, fun _ => ret (false, missing_directory_message file_path));
    (PermissionError, fun _ => ret (false, permission_denied_message file_path));
    (Exception, fun e => ret (false, other_error_message e)) ].

Definition export_transactions (transactions : loc) (file_path : option string)
  : M (bool * string) :=
  file_path <- resolve_path file_path ;;
  try_except (export_body transactions file_path) (export_handlers file_path).

End ExportData.

(** ** ui/settings_panel.py: the theme toggle *)

Module SettingsPanel.

(** Modelled from the spec: the [Settings] model of [database/models.py]
    is not part of the sources.  It is a record with the single field
    [theme], persisted externally; [save] writes the record held in memory
    to its stored row. *)
Record Settings : Type := mkSettings { theme : string }.

(** Calls that leave the panel: the toolkit's appearance mode, the
    refresh callback and the message box. *)
Inductive event : Type :=
| SetAppearanceMode (mode : string)
| RefreshCallback
| ShowInfo (title message : string).

Record panel : Type := mkPanel {
  settings : Settings;              (* self.settings *)
  stored_settings : Settings;       (* the row self.settings was loaded from *)
  theme_var : string;               (* self.theme_var, a StringVar *)
  current_theme_label : string;     (* text of self.current_theme_label *)
  refresh_callback : bool;          (* whether a callback was given *)
  appearance_mode : string;         (* the toolkit's global appearance mode *)
  events : list event               (* oldest first *)
}.

Definition theme_var_set (value : string) (p : panel) : panel :=
  mkPanel (settings p) (stored_settings p) value (current_theme_label p)
          (refresh_callback p) (appearance_mode p) (events p).

Definition set_appearance_mode (mode : string) (p : panel) : panel :=
  mkPanel (settings p) (stored_settings p) (theme_var p) (current_theme_label p)
          (refresh_callback p) mode (events p ++ [SetAppearanceMode mode]).

Definition settings_set_theme (value : string) (p : panel) : panel :=
  mkPanel (mkSettings value) (stored_settings p) (theme_var p)
          (current_theme_label p) (refresh_callback p) (appearance_mode p)
          (events p).

Definition settings_save (p : panel) : panel :=
  mkPanel (settings p) (settings p) (theme_var p) (current_theme_label p)
          (refresh_callback p) (appearance_mode p) (events p).

Definition label_configure (text : string) (p : panel) : panel :=
  mkPanel (settings p) (stored_settings p) (theme_var p) text
          (refresh_callback p) (appearance_mode p) (events p).

Definition emit (e : event) (p : panel) : panel :=
  mkPanel (settings p) (stored_settings p) (theme_var p) (current_theme_label p)
          (refresh_callback p) (appearance_mode p) (events p ++ [e]).

(** The state [__init__] and [setup_settings_panel] leave behind for the
    settings row [row] loaded from the database. *)
Definition init (row : Settings) (callback : bool) (mode : string) : panel :=
  mkPanel row row (theme row) ("Current Theme: " +:+ theme row) callback mode [].

Definition toggle_theme (self : panel) : panel :=
  let new_theme :=
    if String.eqb (theme_var self) "Light" then "Dark" else "Light" in
  let self := theme_var_set new_theme self in
  let self := set_appearance_mode new_theme self in
  let self := settings_set_theme new_theme self in
  let self := settings_save self in
  let self := label_configure ("Current Theme: " +:+ new_theme) self in
  let self := if refresh_callback self then emit RefreshCallback self else self in
  emit (ShowInfo "Success" ("Theme changed to " +:+ new_theme)) self.

End SettingsPanel.

(** ** Vocabulary of the properties *)

Module ExportSpec.
Import Text ExportData.

(** The path the function works on after its first statement. *)
Definition resolved_path (w : world) (file_path : option string) : string :=
  if truthy file_path then default EmptyString file_path
  else default_filename (strftime (w_now w)).

(** The records the list object at [transactions] refers to, in order. *)
Definition records_of (w : world) (transactions : loc) : list record :=
  map (dict_at (w_heap w)) (list_at (w_heap w) transactions).

(** What the file system holds at [path] (nothing reads as empty). *)
Definition content_of (w : world) (path : string) : string :=
  default EmptyString (w_files w !! path).

Definition subset_keys (r0 r : record) : bool :=
  forallb (has_key (keys r0)) (keys r).

(** Two dicts have the same set of keys. *)
Definition same_keys (r0 r : record) : bool :=
  subset_keys r0 r && subset_keys r r0.

Definition share_first_keys (rs : list record) : bool :=
  match rs with
  | [] => true
  | r0 :: _ => forallb (same_keys r0) rs
  end.

(** The values of a record in the order of the header. *)
Definition row_of (names : list string) (r : record) : list string :=
  map (fun key => dict_get r key restval) names.

(** Header and rows of the exported table. *)
Definition table (rs : list record) : list (list string) :=
  match rs with
  | [] => []
  | r0 :: _ => keys r0 :: map (row_of (keys r0)) rs
  end.

(** Neither the name nor the value of an entry holds a CR or an LF. *)
Definition plain (kv : string * string) : bool :=
  negb (has_line_break (fst kv)) && negb (has_line_break (snd kv)).

Definition no_line_breaks (rs : list record) : bool :=
  forallb (forallb plain) rs.

(** The file at [p] can be opened for writing and takes every write. *)
Definition writable (w : world) (p : string) : Prop :=
  w_open_fault w p = None /\ forall data, w_write_fault w p data = None.

(** The message of the [except] clause that handles [e]. *)
Definition failure_message (file_path : string) (e : exn) : string :=
  match exc_family_of e with
  | IsFileNotFoundError => missing_directory_message file_path
  | IsPermissionError => permission_denied_message file_path
  | IsOtherException => other_error_message e
  end.

(** Python's invariant on a [datetime]. *)
Definition valid_datetime (dt : datetime) : bool :=
  Nat.leb 1 (year dt) && Nat.ltb (year dt) (10 ^ 4)
  && Nat.leb 1 (month dt) && Nat.leb (month dt) 12
  && Nat.leb 1 (day dt) && Nat.leb (day dt) 31
  && Nat.ltb (hour dt) 24 && Nat.ltb (minute dt) 60 && Nat.ltb (second dt) 60.

Fixpoint take (n : nat) (s : string) : string :=
  match n, s with
  | S n', String c s' => String c (take n' s')
  | _, _ => EmptyString
  end.

Fixpoint drop (n : nat) (s : string) : string :=
  match n, s with
  | S n', String _ s' => drop n' s'
  | _, _ => s
  end.

Fixpoint strip_prefix (p s : string) : option string :=
  match p, s with
  | EmptyString, _ => Some s
  | String a p', String b s' => if Ascii.eqb a b then strip_prefix p' s' else None
  | String _ _, EmptyString => None
  end.

Definition digits_of_width (n : nat) (s : string) : bool :=
  Nat.eqb (String.length s) n && all_digits s.

(** transactions_export_<YYYYMMDD_HHMMSS>.csv *)
Definition matches_export_pattern (name : string) : bool :=
  match strip_prefix "transactions_export_" name with
  | None => false
  | Some rest =>
      digits_of_width 8 (take 8 rest)
      && String.eqb (take 1 (drop 8 rest)) "_"
      && digits_of_width 6 (take 6 (drop 9 rest))
      && String.eqb (drop 15 rest) ".csv"
  end.

(** The date and time a YYYYMMDD_HHMMSS stamp denotes. *)
Definition read_timestamp (ts : string) : datetime :=
  mkDatetime (read_decimal 0 (take 4 ts))
             (read_decimal 0 (take 2 (drop 4 ts)))
             (read_decimal 0 (take 2 (drop 6 ts)))
             (read_decimal 0 (take 2 (drop 9 ts)))
             (read_decimal 0 (take 2 (drop 11 ts)))
             (read_decimal 0 (take 2 (drop 13 ts))).

(** The stamp inside a default file name. *)
Definition stamp_of (name : string) : string :=
  take 15 (default EmptyString (strip_prefix "transactions_export_" name)).

(** A computation that changes nothing of the world but its files. *)
Definition only_files {A} (m : M A) : Prop :=
  forall w, exists fs, fst (m w) = set_files fs w.

End ExportSpec.

Module SettingsSpec.
Import SettingsPanel.

Definition other_theme (t : string) : string :=
  if String.eqb t "Light" then "Dark" else "Light".

Definition is_theme (t : string) : Prop := t = "Light" \/ t = "Dark".

End SettingsSpec.

(** ** Sample data *)

Module Demo.
Import Text ExportData SettingsPanel.

Definition lunch : record :=
  [("Date", "2024-03-07"); ("Category", "Food"); ("Description", "Lunch");
   ("Amount", "12.50"); ("Type", "Expense")].

Definition salary : record :=
  [("Date", "2024-03-01"); ("Category", "Salary"); ("Description", EmptyString);
   ("Amount", "2500.00"); ("Type", "Income")].

(** A description typed on two lines. *)
Definition team_lunch : record :=
  [("Date", "2024-03-08"); ("Category", "Food");
   ("Description", "Lunch" +:+ chr LF +:+ "with team");
   ("Amount", "48.00"); ("Type", "Expense")].

(** A record with a field the first record does not have. *)
Definition annotated : record :=
  [("Date", "2024-03-09"); ("Category", "Food"); ("Description", "Tea");
   ("Amount", "3.00"); ("Type", "Expense"); ("Note", "cash")].

(** List objects at 0 to 3, dict objects at 10 to 13. *)
Definition demo_heap : heap :=
  mkHeap
    (fun l => match l with
              | 0 => [10; 11]
              | 1 => [12]
              | 2 => [10; 13; 11]
              | _ => []
              end)
    (fun l => match l with
              | 10 => lunch
              | 11 => salary
              | 12 => team_lunch
              | 13 => annotated
              | _ => []
              end).

Definition noon : datetime := mkDatetime 2024 3 7 12 0 5.

Definition no_such_directory (p : string) : exn :=
  mkExn IsFileNotFoundError "FileNotFoundError"
        ("[Errno 2] No such file or directory: '" +:+ p +:+ "'").

Definition permission_denied (p : string) : exn :=
  mkExn IsPermissionError "PermissionError"
        ("[Errno 13] Permission denied: '" +:+ p +:+ "'").

(** The directory [missing] does not exist and [/etc] is read only. *)
Definition demo_open_fault (p : string) : option exn :=
  if String.eqb p "missing/out.csv" then Some (no_such_directory p)
  else if String.eqb p "/etc/out.csv" then Some (permission_denied p)
  else None.

Definition demo_world : world :=
  mkWorld noon demo_heap {[ "out.csv" := "old content" ]}
          demo_open_fault (fun _ _ => None).

Definition light_panel : panel := init (mkSettings "Light") true "Light".

End Demo.

(** ** ui/settings_panel.py: the export button *)

Module SettingsPanelExport.
Import Text ExportData.

(** Modelled from the spec: the rows of the table that
    [get_transaction_history] of [core/analytics.py] returns are not part
    of the sources.  A row has a date, a category, an optional description,
    an amount and an income flag. *)
Record date : Type := mkDate { date_year : nat; date_month : nat; date_day : nat }.

(** [d.strftime("%Y-%m-%d")] *)
Definition date_str (d : date) : string :=
  zpad 4 (date_year d) +:+ "-" +:+ zpad 2 (date_month d) +:+ "-" +:+ zpad 2 (date_day d).

(** Message boxes and the save dialog, as the user sees them. *)
Inductive dialog : Type :=
| InfoBox (title message : string)      (* messagebox.showinfo *)
| ErrorBox (title message : string)     (* messagebox.showerror *)
| SaveAsDialog.                         (* filedialog.asksaveasfilename *)

Definition store_list (l : loc) (items : list loc) (h : heap) : heap :=
  mkHeap (fun x => if Nat.eqb x l then items else list_at h x) (dict_at h).

Definition store_dict (l : loc) (d : record) (h : heap) : heap :=
  mkHeap (list_at h) (fun x => if Nat.eqb x l then d else dict_at h x).

Definition set_heap (h : heap) (w : world) : world :=
  mkWorld (w_now w) h (w_files w) (w_open_fault w) (w_write_fault w).

(** [x or ""] for an optional text. *)
Definition or_empty (x : option string) : string :=
  match x with
  | Some s => if is_empty s then EmptyString else s
  | None => EmptyString
  end.

Section Amount.

(** The type of amounts and what the format [:.2f] prints for one. *)
Variable amount : Type.
Variable format_amount : amount -> string.

Record history_row : Type := mkRow {
  row_date : date;
  row_category : string;
  row_description : option string;
  row_amount : amount;
  row_is_income : bool
}.

Record desktop : Type := mkDesktop {
  d_world : world;
  d_history : exn + list history_row;
      (* get_transaction_history(limit=None): the rows, or what it raises *)
  d_answer : string;
      (* the path picked in the save dialog, empty when cancelled *)
  d_next : loc;                       (* the next unused address *)
  d_shown : list dialog               (* oldest first *)
}.

Definition show (b : dialog) (d : desktop) : desktop :=
  mkDesktop (d_world d) (d_history d) (d_answer d) (d_next d) (d_shown d ++ [b]).

Definition set_world (w : world) (d : desktop) : desktop :=
  mkDesktop w (d_history d) (d_answer d) (d_next d) (d_shown d).

Definition set_next (next : loc) (d : desktop) : desktop :=
  mkDesktop (d_world d) (d_history d) (d_answer d) next (d_shown d).

(** The dict built for one row of the history. *)
Definition transaction_of (row : history_row) : record :=
  [ ("Date", date_str (row_date row));
    ("Category", row_category row);
    ("Description", or_empty (row_description row));
    ("Amount", format_amount (row_amount row));
    ("Type", if row_is_income row then "Income" else "Expense") ].

(** The loop over the rows: each dict is a new object, appended to the
    list object at [transactions]. *)
Fixpoint append_transactions (rows : list history_row) (transactions next : loc)
         (h : heap) : heap * loc :=
  match rows with
  | [] => (h, next)
  | row :: rest =>
      let h := store_dict next (transaction_of row) h in
      let h := store_list transactions (list_at h transactions ++ [next]) h in
      append_transactions rest transactions (S next) h
  end.

(** The handler of the outer [except Exception as e]. *)
Definition export_error (e : exn) (d : desktop) : desktop :=
  show (ErrorBox "Export Error" ("An error occurred while exporting: " +:+ exc_str e)) d.

(** [SettingsPanel.export_transactions] *)
Definition export_transactions (d : desktop) : desktop :=
  match d_history d with
  | inl e => export_error e d
  | inr [] => show (InfoBox "Export Transactions" "No transactions to export") d
  | inr rows =>
      let transactions := d_next d in
      let h := store_list transactions [] (w_heap (d_world d)) in
      let '(h, next) := append_transactions rows transactions (S transactions) h in
      let d := set_next next (set_world (set_heap h (d_world d)) d) in
      let d := show SaveAsDialog d in
      let file_path := d_answer d in
      if is_empty file_path then d
      else
        match ExportData.export_transactions transactions (Some file_path) (d_world d) with
        | (w, inr (true, result)) =>
            show (InfoBox "Export Successful"
                          ("Transactions exported to:" +:+ chr LF +:+ result))
                 (set_world w d)
        | (w, inr (false, result)) =>
            show (ErrorBox "Export Failed" result) (set_world w d)
        | (w, inl e) => export_error e (set_world w d)
        end
  end.

(** The cells of the CSV record of a row, in the order of the header. *)
Definition cells (row : history_row) : list string :=
  [ date_str (row_date row);
    row_category row;
    or_empty (row_description row);
    format_amount (row_amount row);
    if row_is_income row then "Income" else "Expense" ].

End Amount.

Arguments mkRow {amount}.
Arguments row_date {amount}.
Arguments row_category {amount}.
Arguments row_description {amount}.
Arguments row_amount {amount}.
Arguments row_is_income {amount}.
Arguments mkDesktop {amount}.
Arguments d_world {amount}.
Arguments d_history {amount}.
Arguments d_answer {amount}.
Arguments d_next {amount}.
Arguments d_shown {amount}.
Arguments show {amount}.
Arguments set_world {amount}.
Arguments set_next {amount}.
Arguments export_error {amount}.
Arguments transaction_of {amount}.
Arguments append_transactions {amount}.
Arguments export_transactions {amount}.
Arguments cells {amount}.

Definition header : list string := ["Date"; "Category"; "Description"; "Amount"; "Type"].

(** The user was asked for a path and picked none. *)
Definition cancelled {amount} (d : desktop amount) : bool :=
  match d_history d with
  | inr (_ :: _) => is_empty (d_answer d)
  | _ => false
  end.

Definition is_message_box (b : dialog) : bool :=
  match b with
  | InfoBox _ _ | ErrorBox _ _ => true
  | SaveAsDialog => false
  end.

End SettingsPanelExport.

(** ** Vocabulary of the further properties *)

Module MoreSpec.
Import Text ExportData ExportSpec SettingsPanel.

(** A computation that leaves every file but the one at [p] as it was. *)
Definition keeps_others (p : string) {A} (m : M A) : Prop :=
  forall w q, q <> p -> w_files (fst (m w)) !! q = w_files w !! q.

(** The button pressed [n] times. *)
Fixpoint toggles (n : nat) (p : panel) : panel :=
  match n with
  | 0 => p
  | S n' => toggle_theme (toggles n' p)
  end.

Definition is_refresh (e : event) : bool :=
  match e with RefreshCallback => true | _ => false end.

Definition is_show_info (e : event) : bool :=
  match e with ShowInfo _ _ => true | _ => false end.

Definition count (f : event -> bool) (es : list event) : nat :=
  List.length (List.filter f es).

End MoreSpec.

Module MoreDemo.
Import Text ExportData SettingsPanel SettingsPanelExport Demo.

(** A record without description and type. *)
Definition short_record : record :=
  [("Amount", "7.00"); ("Date", "2024-03-10")].

(** List objects at 4 and 5 besides those of [demo_heap]. *)
Definition more_heap : heap :=
  mkHeap
    (fun l => match l with
              | 4 => [10; 20; 11]
              | 5 => [10; 11; 13; 12]
              | _ => list_at demo_heap l
              end)
    (fun l => match l with
              | 20 => short_record
              | _ => dict_at demo_heap l
              end).

Definition more_world : world :=
  mkWorld noon more_heap {[ "out.csv" := "old content"; "notes.txt" := "keep me" ]}
          demo_open_fault (fun _ _ => None).

(** A history whose amounts are given by their two-decimal text. *)
Definition history : list (history_row string) :=
  [ mkRow (mkDate 2024 3 7) "Food" (Some "Lunch") "12.50" false;
    mkRow (mkDate 2024 3 1) "Salary" None "2500.00" true ].

Definition demo_desktop (answer : string) : desktop string :=
  mkDesktop more_world (inr history) answer 100 [].

Definition dark_panel : panel := init (mkSettings "Dark") false "Dark".
Definition system_panel : panel := init (mkSettings "System") true "System".

End MoreDemo.

(** ** Facts about text *)

Module TextFacts.
Import Text ExportSpec.

#[local] Arguments digit : simpl never.
#[local] Arguments is_digit : simpl never.

Lemma append_nil_r (s : string) : s +:+ EmptyString = s.
Proof. induction s as [|c s IH]; simpl; [reflexivity | now rewrite IH]. Qed.

Lemma append_assoc (a b c : string) : (a +:+ b) +:+ c = a +:+ (b +:+ c).
Proof. induction a as [|x a IH]; simpl; [reflexivity | now rewrite IH]. Qed.

Lemma length_append (a b : string) :
  String.length (a +:+ b) = String.length a + String.length b.
Proof. induction a as [|x a IH]; simpl; [reflexivity | now rewrite IH]. Qed.

Lemma length_zpad (w n : nat) : String.length (zpad w n) = w.
Proof.
  revert n; induction w as [|w IH]; intros n; simpl; [reflexivity |].
  rewrite length_append, IH; simpl; lia.
Qed.

Lemma is_digit_digit (d : nat) : is_digit (digit d) = true.
Proof.
  unfold is_digit, digit.
  assert (Hlt : d mod 10 < 10) by (apply Nat.mod_upper_bound; lia).
  rewrite nat_ascii_embedding by lia.
  apply andb_true_intro; split; apply Nat.leb_le; lia.
Qed.

Lemma digit_value (d : nat) : nat_of_ascii (digit d) - 48 = d mod 10.
Proof.
  unfold digit.
  assert (Hlt : d mod 10 < 10) by (apply Nat.mod_upper_bound; lia).
  rewrite nat_ascii_embedding by lia. lia.
Qed.

Lemma all_digits_append (a b : string) :
  all_digits (a +:+ b) = all_digits a && all_digits b.
Proof.
  unfold all_digits.
  induction a as [|x a IH]; simpl; [reflexivity |].
  now rewrite IH, andb_assoc.
Qed.

Lemma all_digits_zpad (w n : nat) : all_digits (zpad w n) = true.
Proof.
  revert n; induction w as [|w IH]; intros n; simpl; [reflexivity |].
  rewrite all_digits_append, IH. unfold all_digits, chr.
  cbn [list_ascii_of_string forallb]. now rewrite is_digit_digit.
Qed.

Lemma read_decimal_append (a b : string) (acc : nat) :
  read_decimal acc (a +:+ b) = read_decimal (read_decimal acc a) b.
Proof. revert acc; induction a as [|x a IH]; intros acc; simpl; [reflexivity | apply IH]. Qed.

Lemma read_decimal_zpad (w n acc : nat) :
  read_decimal acc (zpad w n) = acc * 10 ^ w + n mod 10 ^ w.
Proof.
  revert n acc; induction w as [|w IH]; intros n acc.
  - simpl. lia.
  - cbn [zpad]. rewrite read_decimal_append, IH. cbn [read_decimal chr].
    rewrite digit_value.
    change (10 ^ S w) with (10 * 10 ^ w).
    rewrite (Nat.Div0.mod_mul_r n 10 (10 ^ w)). lia.
Qed.

Lemma take_append (a b : string) : take (String.length a) (a +:+ b) = a.
Proof. induction a as [|x a IH]; simpl; [now destruct b | now rewrite IH]. Qed.

Lemma drop_append (a b : string) : drop (String.length a) (a +:+ b) = b.
Proof. induction a as [|x a IH]; simpl; [now destruct b | exact IH]. Qed.

End TextFacts.

(** ** Facts about lines and the CSV writer *)

Module CsvFacts.
Import Text ExportData ExportSpec TextFacts.

Lemma mem_char_append (c : ascii) (a b : string) :
  mem_char c (a +:+ b) = mem_char c a || mem_char c b.
Proof.
  induction a as [|x a IH]; simpl; [reflexivity |].
  now rewrite IH, orb_assoc.
Qed.

Lemma has_line_break_append (a b : string) :
  has_line_break (a +:+ b) = has_line_break a || has_line_break b.
Proof.
  unfold has_line_break. rewrite !mem_char_append.
  destruct (mem_char CR a), (mem_char LF a), (mem_char CR b), (mem_char LF b);
    reflexivity.
Qed.

Lemma has_line_break_cons (c : ascii) (s : string) :
  has_line_break (String c s) = false ->
  Ascii.eqb c LF = false /\ Ascii.eqb c CR = false /\ has_line_break s = false.
Proof.
  unfold has_line_break. cbn [mem_char].
  rewrite (Ascii.eqb_sym c LF), (Ascii.eqb_sym c CR).
  destruct (Ascii.eqb CR c), (Ascii.eqb LF c), (mem_char CR s), (mem_char LF s);
    cbn [orb]; intros H; try discriminate H; repeat split; reflexivity.
Qed.

(** A stretch of text without line break followed by the line terminator
    is one line. *)
Lemma lines_from_terminated (s rest : string) (cur : list ascii) :
  has_line_break s = false ->
  lines_from false cur (s +:+ lineterminator +:+ rest)
  = string_of_list_ascii (rev cur ++ list_ascii_of_string s)
      :: lines_from false [] rest.
Proof.
  revert cur; induction s as [|c s IH]; intros cur Hs.
  - simpl. now rewrite app_nil_r.
  - apply has_line_break_cons in Hs as (Hlf & Hcr & Hs).
    simpl. rewrite Hlf, Hcr, (IH _ Hs). simpl.
    now rewrite <- app_assoc.
Qed.

Lemma lines_terminated (s rest : string) :
  has_line_break s = false ->
  lines ((s +:+ lineterminator) +:+ rest) = s :: lines rest.
Proof.
  intros Hs. unfold lines.
  rewrite append_assoc, (lines_from_terminated _ _ _ Hs). simpl.
  now rewrite string_of_list_ascii_of_string.
Qed.

Lemma lines_records (rows : list (list string)) :
  forallb (fun fields => negb (has_line_break (csv_join fields))) rows = true ->
  lines (concat_all (map csv_record rows)) = map csv_join rows.
Proof.
  induction rows as [|fields rows IH]; simpl; intros H; [reflexivity |].
  apply andb_prop in H as [Hf Hrows].
  unfold csv_record at 1.
  rewrite lines_terminated by now apply negb_true_iff.
  now rewrite IH.
Qed.

Lemma has_line_break_double_quotes (s : string) :
  has_line_break (double_quotes s) = has_line_break s.
Proof.
  induction s as [|c s IH]; [reflexivity |].
  simpl. destruct (Ascii.eqb c quote_char) eqn:Hc.
  - apply Ascii.eqb_eq in Hc; subst c.
    change (String quote_char (String quote_char (double_quotes s)))
      with (chr quote_char +:+ chr quote_char +:+ double_quotes s).
    change (String quote_char s) with (chr quote_char +:+ s).
    rewrite !has_line_break_append, IH. reflexivity.
  - change (String c (double_quotes s)) with (chr c +:+ double_quotes s).
    change (String c s) with (chr c +:+ s).
    now rewrite !has_line_break_append, IH.
Qed.

Lemma has_line_break_csv_field (s : string) :
  has_line_break s = false -> has_line_break (csv_field s) = false.
Proof.
  intros Hs. unfold csv_field. destruct (needs_quotes s); [| exact Hs].
  now rewrite !has_line_break_append, has_line_break_double_quotes, Hs.
Qed.

Lemma has_line_break_join (parts : list string) :
  forallb (fun p => negb (has_line_break p)) parts = true ->
  has_line_break (join (chr delimiter) parts) = false.
Proof.
  induction parts as [|p ps IH]; intros H; [reflexivity |].
  cbn [forallb] in H. apply andb_prop in H as [Hp Hps].
  apply negb_true_iff in Hp.
  destruct ps as [|q ps]; [exact Hp |].
  change (join (chr delimiter) (p :: q :: ps))
    with (p +:+ chr delimiter +:+ join (chr delimiter) (q :: ps)).
  rewrite !has_line_break_append, Hp, (IH Hps). reflexivity.
Qed.

Lemma has_line_break_csv_join (fields : list string) :
  forallb (fun f => negb (has_line_break f)) fields = true ->
  has_line_break (csv_join fields) = false.
Proof.
  intros H. unfold csv_join.
  destruct (Nat.ltb 0 (List.length fields) && is_empty _); [reflexivity |].
  apply has_line_break_join.
  rewrite forallb_forall in *. intros p Hp.
  apply in_map_iff in Hp as (f & <- & Hf).
  apply negb_true_iff, has_line_break_csv_field, negb_true_iff, H, Hf.
Qed.

End CsvFacts.

(** ** Running the export *)

Module ExportFacts.
Import Text ExportData ExportSpec TextFacts CsvFacts.
Local Open Scope py_scope.

Lemma set_files_twice (fs1 fs2 : gmap string string) (w : world) :
  set_files fs2 (set_files fs1 w) = set_files fs2 w.
Proof. reflexivity. Qed.

Lemma set_files_same (w : world) : set_files (w_files w) w = w.
Proof. now destruct w. Qed.

Lemma resolve_path_run (file_path : option string) (w : world) :
  resolve_path file_path w = (w, inr (resolved_path w file_path)).
Proof.
  unfold resolve_path, resolved_path.
  now destruct (truthy file_path).
Qed.

Lemma export_transactions_unfold (transactions : loc) (file_path : option string)
      (w : world) :
  export_transactions transactions file_path w
  = try_except (export_body transactions (resolved_path w file_path))
               (export_handlers (resolved_path w file_path)) w.
Proof.
  unfold export_transactions, bind. now rewrite resolve_path_run.
Qed.

(** *** The three clauses *)

Lemma dispatch_export_handlers (p : string) (e : exn) (w : world) :
  dispatch (export_handlers p) e w = (w, inr (false, failure_message p e)).
Proof.
  unfold export_handlers, failure_message, dispatch, isinstance, ret.
  now destruct (exc_family_of e).
Qed.

Lemma try_export_raises (body : M (bool * string)) (p : string) (e : exn)
      (w w' : world) :
  body w = (w', inl e) ->
  try_except body (export_handlers p) w = (w', inr (false, failure_message p e)).
Proof.
  intros H. unfold try_except. rewrite H. apply dispatch_export_handlers.
Qed.

Lemma try_export_returns (body : M (bool * string)) (p : string)
      (r : bool * string) (w w' : world) :
  body w = (w', inr r) ->
  try_except body (export_handlers p) w = (w', inr r).
Proof. intros H. unfold try_except. now rewrite H. Qed.

Lemma forallb_map {A B} (f : B -> bool) (g : A -> B) (l : list A) :
  forallb f (map g l) = forallb (fun x => f (g x)) l.
Proof. induction l as [|x l IH]; simpl; [reflexivity | now rewrite IH]. Qed.

(** *** The writer *)

Lemma has_key_In (names : list string) (k : string) :
  has_key names k = true <-> In k names.
Proof.
  unfold has_key. rewrite existsb_exists. split.
  - intros (x & Hx & Heq). apply String.eqb_eq in Heq. now subst.
  - intros H. exists k. split; [exact H | apply String.eqb_refl].
Qed.

Lemma no_wrong_fields (names ks : list string) :
  forallb (has_key names) ks = true ->
  List.filter (fun k => negb (has_key names k)) ks = [].
Proof.
  induction ks as [|k ks IH]; simpl; intros H; [reflexivity |].
  apply andb_prop in H as [Hk Hks]. rewrite Hk. simpl. auto.
Qed.

Lemma dict_to_list_ok (f : file) (names : list string) (r : record) (w : world) :
  forallb (has_key names) (keys r) = true ->
  dict_to_list (mkDictWriter f names) r w = (w, inr (row_of names r)).
Proof.
  intros H. unfold dict_to_list. simpl.
  now rewrite (no_wrong_fields _ _ H).
Qed.

Lemma file_write_ok (f : file) (data c : string) (w : world) :
  w_files w !! f = Some c ->
  w_write_fault w f data = None ->
  file_write f data w = (set_files (<[f := c +:+ data]> (w_files w)) w, inr tt).
Proof. intros Hc Hw. unfold file_write. now rewrite Hw, Hc. Qed.

Lemma writerow_ok (f : file) (names : list string) (r : record) (c : string)
      (w : world) :
  w_files w !! f = Some c ->
  (forall data, w_write_fault w f data = None) ->
  forallb (has_key names) (keys r) = true ->
  writerow (mkDictWriter f names) r w
  = (set_files (<[f := c +:+ csv_record (row_of names r)]> (w_files w)) w, inr tt).
Proof.
  intros Hc Hw Hk. unfold writerow, bind.
  rewrite (dict_to_list_ok _ _ _ _ Hk). simpl.
  unfold writer_writerow. now apply file_write_ok.
Qed.

Lemma dict_get_header (names : list string) (k d : string) :
  In k names -> dict_get (combine names names) k d = k.
Proof.
  induction names as [|n names IH]; simpl; [contradiction |].
  intros [-> | Hin].
  - now rewrite String.eqb_refl.
  - destruct (String.eqb n k) eqn:Hnk; [now apply String.eqb_eq | auto].
Qed.

Lemma keys_header (names : list string) : keys (combine names names) = names.
Proof.
  unfold keys. induction names as [|n names IH]; simpl; [reflexivity | now rewrite IH].
Qed.

Lemma row_of_header (names : list string) : row_of names (combine names names) = names.
Proof.
  unfold row_of. transitivity (map (fun k : string => k) names).
  - apply map_ext_in. intros k Hk. now apply dict_get_header.
  - apply map_id.
Qed.

Lemma has_key_self (names : list string) : forallb (has_key names) names = true.
Proof. apply forallb_forall. intros k Hk. now apply has_key_In. Qed.

Lemma writeheader_ok (f : file) (names : list string) (c : string) (w : world) :
  w_files w !! f = Some c ->
  (forall data, w_write_fault w f data = None) ->
  writeheader (mkDictWriter f names) w
  = (set_files (<[f := c +:+ csv_record names]> (w_files w)) w, inr tt).
Proof.
  intros Hc Hw. unfold writeheader. simpl.
  rewrite (writerow_ok _ _ _ c) by (auto; rewrite keys_header; apply has_key_self).
  now rewrite row_of_header.
Qed.

Lemma writerows_ok (f : file) (names : list string) (ls : list loc) :
  forall (c : string) (w : world),
    w_files w !! f = Some c ->
    (forall data, w_write_fault w f data = None) ->
    forallb (fun l => forallb (has_key names) (keys (dict_at (w_heap w) l))) ls = true ->
    writerows (mkDictWriter f names) ls w
    = (set_files
         (<[f := c +:+ concat_all
                   (map (fun l => csv_record (row_of names (dict_at (w_heap w) l))) ls)]>
            (w_files w)) w,
       inr tt).
Proof.
  induction ls as [|l ls IH]; intros c w Hc Hw Hk.
  - simpl. unfold ret. rewrite append_nil_r, insert_id by exact Hc.
    now rewrite set_files_same.
  - simpl in Hk. apply andb_prop in Hk as [Hl Hls].
    cbn [writerows]. unfold bind at 1. unfold read_dict at 1.
    unfold bind at 1. rewrite (writerow_ok _ _ _ c) by assumption.
    rewrite (IH (c +:+ csv_record (row_of names (dict_at (w_heap w) l))));
      [| simpl; apply lookup_insert_eq | exact Hw | exact Hls].
    simpl. rewrite insert_insert_eq, append_assoc. reflexivity.
Qed.

End ExportFacts.

Module ExportRun.
Import Text ExportData ExportSpec TextFacts CsvFacts ExportFacts.
Local Open Scope py_scope.

Lemma open_w_ok (p : string) (w : world) :
  w_open_fault w p = None ->
  open_w p w = (set_files (<[p := EmptyString]> (w_files w)) w, inr p).
Proof. intros H. unfold open_w. now rewrite H. Qed.

Lemma open_w_fault (p : string) (e : exn) (w : world) :
  w_open_fault w p = Some e -> open_w p w = (w, inl e).
Proof. intros H. unfold open_w. now rewrite H. Qed.

Lemma export_body_open_fault (txs : loc) (p : string) (e : exn) (w : world) :
  w_open_fault w p = Some e -> export_body txs p w = (w, inl e).
Proof.
  intros H. unfold export_body, with_open, bind. now rewrite (open_w_fault _ _ _ H).
Qed.

Lemma export_body_empty (txs : loc) (p : string) (w : world) :
  w_open_fault w p = None ->
  list_at (w_heap w) txs = [] ->
  export_body txs p w
  = (set_files (<[p := EmptyString]> (w_files w)) w, inr (false, no_transactions_message)).
Proof.
  intros Ho He. unfold export_body, with_open, bind.
  rewrite (open_w_ok _ _ Ho). unfold read_list. simpl. now rewrite He.
Qed.

Lemma export_body_ok (txs : loc) (p : string) (w : world) (r0 : record)
      (rs : list record) :
  records_of w txs = r0 :: rs ->
  forallb (subset_keys r0) (r0 :: rs) = true ->
  writable w p ->
  export_body txs p w
  = (set_files (<[p := concat_all (map csv_record (table (r0 :: rs)))]> (w_files w)) w,
     inr (true, p)).
Proof.
  intros Hrs Hk [Ho Hw]. unfold records_of in Hrs.
  destruct (list_at (w_heap w) txs) as [|l0 ls] eqn:Hl; [discriminate |].
  unfold export_body, with_open. unfold bind at 1.
  rewrite (open_w_ok _ _ Ho).
  unfold bind at 1, read_list at 1. cbn [w_heap set_files]. rewrite Hl.
  unfold bind at 1, read_dict at 1. cbn [w_heap set_files].
  set (w1 := set_files _ w).
  assert (H1 : w_files w1 !! p = Some EmptyString) by apply lookup_insert_eq.
  assert (Hw1 : forall data, w_write_fault w1 p data = None) by exact Hw.
  unfold bind at 1. rewrite (writeheader_ok _ _ _ _ H1 Hw1).
  set (w2 := set_files _ w1).
  assert (H2 : w_files w2 !! p = Some (EmptyString +:+ csv_record (keys (dict_at (w_heap w) l0))))
    by apply lookup_insert_eq.
  unfold bind at 1. rewrite (writerows_ok _ _ _ _ _ H2).
  - unfold ret. subst w2 w1. cbn [w_files w_heap set_files].
    rewrite !insert_insert_eq.
    simpl in Hrs. injection Hrs as Hr0 Hrest. subst r0 rs.
    cbn [table map concat_all]. rewrite !List.map_map. reflexivity.
  - exact Hw.
  - simpl in Hrs. injection Hrs as Hr0 Hrest. subst r0 rs.
    subst w2 w1. cbn [w_heap set_files].
    cbn [forallb] in Hk |- *. rewrite forallb_map in Hk. exact Hk.
Qed.

Lemma export_success (txs : loc) (file_path : option string) (w : world)
      (r0 : record) (rs : list record) :
  let p := resolved_path w file_path in
  records_of w txs = r0 :: rs ->
  forallb (subset_keys r0) (r0 :: rs) = true ->
  writable w p ->
  export_transactions txs file_path w
  = (set_files (<[p := concat_all (map csv_record (table (r0 :: rs)))]> (w_files w)) w,
     inr (true, p)).
Proof.
  intros p Hrs Hk Hw. rewrite export_transactions_unfold.
  apply try_export_returns. now apply export_body_ok.
Qed.

Lemma content_of_set_files (fs : gmap string string) (w : world) (p c : string) :
  content_of (set_files (<[p := c]> fs) w) p = c.
Proof. unfold content_of. simpl. now rewrite lookup_insert_eq. Qed.

Lemma same_keys_subset (r0 : record) (rs : list record) :
  forallb (same_keys r0) rs = true -> forallb (subset_keys r0) rs = true.
Proof.
  intros H. rewrite forallb_forall in *. intros r Hr.
  specialize (H r Hr). unfold same_keys in H. now apply andb_prop in H as [H _].
Qed.

(** *** Fields without line breaks *)

Lemma plain_keys (r : record) :
  forallb plain r = true ->
  forallb (fun f => negb (has_line_break f)) (keys r) = true.
Proof.
  unfold keys. rewrite forallb_map. intros H.
  rewrite forallb_forall in *. intros kv Hkv.
  specialize (H kv Hkv). unfold plain in H. now apply andb_prop in H as [H _].
Qed.

Lemma plain_dict_get (r : record) (k : string) :
  forallb plain r = true -> has_line_break (dict_get r k restval) = false.
Proof.
  induction r as [|[k' v] r IH]; simpl; intros H; [reflexivity |].
  apply andb_prop in H as [Hkv Hr].
  destruct (String.eqb k' k); [| auto].
  unfold plain in Hkv. apply andb_prop in Hkv as [_ Hv]. now apply negb_true_iff.
Qed.

Lemma plain_row (names : list string) (r : record) :
  forallb plain r = true ->
  forallb (fun f => negb (has_line_break f)) (row_of names r) = true.
Proof.
  intros H. unfold row_of. rewrite forallb_map.
  apply forallb_forall. intros k _. apply negb_true_iff. now apply plain_dict_get.
Qed.

Lemma plain_table (rs : list record) :
  no_line_breaks rs = true ->
  forallb (fun fields => negb (has_line_break (csv_join fields))) (table rs) = true.
Proof.
  unfold no_line_breaks. destruct rs as [|r0 rs]; [reflexivity |].
  intros H. cbn [table forallb]. apply andb_true_intro. split.
  - apply negb_true_iff, has_line_break_csv_join, plain_keys.
    simpl in H. now apply andb_prop in H as [H _].
  - rewrite forallb_map. rewrite forallb_forall in *. intros r Hr.
    apply negb_true_iff, has_line_break_csv_join, plain_row, H, Hr.
Qed.

Lemma length_table (rs : list record) :
  rs <> [] -> List.length (table rs) = S (List.length rs).
Proof.
  destruct rs as [|r0 rs]; [congruence |]. intros _.
  cbn [table]. simpl. now rewrite length_map.
Qed.

End ExportRun.

(** ** What the export leaves alone *)

Module ExportFrame.
Import Text ExportData ExportSpec ExportFacts.
Local Open Scope py_scope.

Create HintDb frame.

Lemma only_files_ret {A} (a : A) : only_files (ret a).
Proof. intros w. exists (w_files w). simpl. now rewrite set_files_same. Qed.

Lemma only_files_raise {A} (e : exn) : only_files (@raise A e).
Proof. intros w. exists (w_files w). simpl. now rewrite set_files_same. Qed.

Lemma only_files_bind {A B} (m : M A) (k : A -> M B) :
  only_files m -> (forall a, only_files (k a)) -> only_files (bind m k).
Proof.
  intros Hm Hk w. unfold bind.
  destruct (Hm w) as [fs Hfs]. destruct (m w) as [w1 [e | a]]; simpl in Hfs; subst w1.
  - now exists fs.
  - destruct (Hk a (set_files fs w)) as [fs' Hfs']. exists fs'. now rewrite Hfs'.
Qed.

Lemma only_files_dispatch {A} (clauses : list (except_clause A)) (e : exn) :
  Forall (fun c => forall e', only_files (snd c e')) clauses ->
  only_files (dispatch clauses e).
Proof.
  induction 1 as [|[c handler] rest Hc _ IH]; simpl.
  - apply only_files_raise.
  - destruct (isinstance e c); [apply Hc | apply IH].
Qed.

Lemma only_files_try_except {A} (body : M A) (clauses : list (except_clause A)) :
  only_files body ->
  Forall (fun c => forall e, only_files (snd c e)) clauses ->
  only_files (try_except body clauses).
Proof.
  intros Hb Hc w. unfold try_except.
  destruct (Hb w) as [fs Hfs]. destruct (body w) as [w1 [e | a]]; simpl in Hfs; subst w1.
  - destruct (only_files_dispatch clauses e Hc (set_files fs w)) as [fs' Hfs'].
    exists fs'. now rewrite Hfs'.
  - now exists fs.
Qed.

Lemma only_files_datetime_now : only_files datetime_now.
Proof. intros w. exists (w_files w). simpl. now rewrite set_files_same. Qed.

Lemma only_files_read_list (l : loc) : only_files (read_list l).
Proof. intros w. exists (w_files w). simpl. now rewrite set_files_same. Qed.

Lemma only_files_read_dict (l : loc) : only_files (read_dict l).
Proof. intros w. exists (w_files w). simpl. now rewrite set_files_same. Qed.

Lemma only_files_open_w (p : string) : only_files (open_w p).
Proof.
  intros w. unfold open_w. destruct (w_open_fault w p).
  - exists (w_files w). simpl. now rewrite set_files_same.
  - eexists. reflexivity.
Qed.

Lemma only_files_file_write (f : file) (data : string) : only_files (file_write f data).
Proof.
  intros w. unfold file_write. destruct (w_write_fault w f data).
  - exists (w_files w). simpl. now rewrite set_files_same.
  - eexists. reflexivity.
Qed.

#[local] Hint Resolve only_files_ret only_files_raise only_files_datetime_now
  only_files_read_list only_files_read_dict only_files_open_w
  only_files_file_write : frame.

Lemma only_files_dict_to_list (dw : DictWriter) (r : record) :
  only_files (dict_to_list dw r).
Proof. unfold dict_to_list. destruct (List.filter _ _); auto with frame. Qed.

Lemma only_files_writerow (dw : DictWriter) (r : record) : only_files (writerow dw r).
Proof.
  unfold writerow, writer_writerow.
  apply only_files_bind; [apply only_files_dict_to_list | auto with frame].
Qed.

Lemma only_files_writeheader (dw : DictWriter) : only_files (writeheader dw).
Proof. apply only_files_writerow. Qed.

Lemma only_files_writerows (dw : DictWriter) (ls : list loc) :
  only_files (writerows dw ls).
Proof.
  induction ls as [|l ls IH]; simpl; [auto with frame |].
  apply only_files_bind; [auto with frame | intros r].
  apply only_files_bind; [apply only_files_writerow | intros _; exact IH].
Qed.

Lemma only_files_resolve_path (file_path : option string) :
  only_files (resolve_path file_path).
Proof.
  unfold resolve_path. destruct (negb (truthy file_path)); [| auto with frame].
  apply only_files_bind; auto with frame.
Qed.

Lemma only_files_export_body (txs : loc) (p : string) : only_files (export_body txs p).
Proof.
  unfold export_body, with_open.
  apply only_files_bind; [auto with frame | intros f].
  apply only_files_bind; [auto with frame | intros [|first rest]]; [auto with frame |].
  apply only_files_bind; [auto with frame | intros r0].
  apply only_files_bind; [apply only_files_writeheader | intros _].
  apply only_files_bind; [apply only_files_writerows | intros _; auto with frame].
Qed.

Lemma only_files_export_transactions (txs : loc) (file_path : option string) :
  only_files (export_transactions txs file_path).
Proof.
  unfold export_transactions.
  apply only_files_bind; [apply only_files_resolve_path | intros p].
  apply only_files_try_except; [apply only_files_export_body |].
  unfold export_handlers. repeat constructor; simpl; intros; auto with frame.
Qed.

End ExportFrame.

(** ** The default file name *)

Module StampFacts.
Import Text ExportData ExportSpec TextFacts.

Lemma strftime_date (dt : datetime) (s : string) :
  take 8 (strftime dt +:+ s)
  = zpad 4 (year dt) +:+ zpad 2 (month dt) +:+ zpad 2 (day dt).
Proof. reflexivity. Qed.

Lemma strftime_separator (dt : datetime) (s : string) :
  take 1 (drop 8 (strftime dt +:+ s)) = "_".
Proof. reflexivity. Qed.

Lemma strftime_time (dt : datetime) (s : string) :
  take 6 (drop 9 (strftime dt +:+ s))
  = zpad 2 (hour dt) +:+ zpad 2 (minute dt) +:+ zpad 2 (second dt).
Proof. reflexivity. Qed.

Lemma strftime_rest (dt : datetime) (s : string) :
  drop 15 (strftime dt +:+ s) = s.
Proof. reflexivity. Qed.

Lemma strip_default_filename (ts : string) :
  strip_prefix "transactions_export_" (default_filename ts) = Some (ts +:+ ".csv").
Proof. reflexivity. Qed.

Lemma digits_of_width_append (m n : nat) (a b : string) :
  digits_of_width m a = true -> digits_of_width n b = true ->
  digits_of_width (m + n) (a +:+ b) = true.
Proof.
  unfold digits_of_width. intros Ha Hb.
  apply andb_prop in Ha as [Hla Hda]. apply andb_prop in Hb as [Hlb Hdb].
  apply Nat.eqb_eq in Hla, Hlb.
  rewrite length_append, all_digits_append, Hda, Hdb, Hla, Hlb.
  now rewrite Nat.eqb_refl.
Qed.

Lemma digits_of_width_zpad (w n : nat) : digits_of_width w (zpad w n) = true.
Proof.
  unfold digits_of_width. now rewrite length_zpad, all_digits_zpad, Nat.eqb_refl.
Qed.

Lemma default_filename_matches (dt : datetime) :
  matches_export_pattern (default_filename (strftime dt)) = true.
Proof.
  unfold matches_export_pattern. rewrite strip_default_filename.
  rewrite strftime_date, strftime_separator, strftime_time, strftime_rest.
  rewrite (digits_of_width_append 4 4), (digits_of_width_append 2 4); try reflexivity;
    repeat first [ apply digits_of_width_zpad | apply (digits_of_width_append 2 2) ].
Qed.

Lemma stamp_of_default_filename (dt : datetime) :
  stamp_of (default_filename (strftime dt)) = strftime dt.
Proof.
  unfold stamp_of. rewrite strip_default_filename. cbn [default].
  reflexivity.
Qed.

Lemma read_zpad_small (w n : nat) : n < 10 ^ w -> read_decimal 0 (zpad w n) = n.
Proof. intros H. rewrite read_decimal_zpad. simpl. now apply Nat.mod_small. Qed.

Lemma read_timestamp_strftime (dt : datetime) :
  valid_datetime dt = true -> read_timestamp (strftime dt) = dt.
Proof.
  unfold valid_datetime. intros H.
  repeat (apply andb_prop in H as [H ?]).
  repeat match goal with
         | Hb : Nat.leb _ _ = true |- _ => apply Nat.leb_le in Hb
         | Hb : Nat.ltb _ _ = true |- _ => apply Nat.ltb_lt in Hb
         end.
  destruct dt as [y mo d h mi s]. cbn [year month day hour minute second] in *.
  unfold read_timestamp.
  change (take 4 (strftime (mkDatetime y mo d h mi s))) with (zpad 4 y).
  change (take 2 (drop 4 (strftime (mkDatetime y mo d h mi s)))) with (zpad 2 mo).
  change (take 2 (drop 6 (strftime (mkDatetime y mo d h mi s)))) with (zpad 2 d).
  change (take 2 (drop 9 (strftime (mkDatetime y mo d h mi s)))) with (zpad 2 h).
  change (take 2 (drop 11 (strftime (mkDatetime y mo d h mi s)))) with (zpad 2 mi).
  change (take 2 (drop 13 (strftime (mkDatetime y mo d h mi s)))) with (zpad 2 s).
  rewrite !read_zpad_small; [reflexivity | | | | | |];
    try assumption; change (10 ^ 2) with 100; lia.
Qed.

End StampFacts.

(** ** The properties of the export *)

Module ExportClaims.
Import Text ExportData ExportSpec TextFacts CsvFacts ExportFacts ExportRun
       ExportFrame StampFacts Demo.
Local Open Scope py_scope.

Lemma bind_returns {A B} (m : M A) (k : A -> M B) (w w' : world) (b : B) :
  bind m k w = (w', inr b) ->
  exists w1 a, m w = (w1, inr a) /\ k a w1 = (w', inr b).
Proof.
  unfold bind. destruct (m w) as [w1 [e | a]]; intros H; [discriminate |].
  now exists w1, a.
Qed.

(** The body returns only at its two [return] statements. *)
Lemma export_body_returns (txs : loc) (p : string) (w w' : world) (r : bool * string) :
  export_body txs p w = (w', inr r) ->
  r = (false, no_transactions_message) \/ r = (true, p).
Proof.
  unfold export_body, with_open. intros H.
  apply bind_returns in H as (w1 & f & _ & H).
  apply bind_returns in H as (w2 & ls & _ & H).
  destruct ls as [|first rest].
  - left. unfold ret in H. congruence.
  - right.
    apply bind_returns in H as (w3 & r0 & _ & H).
    apply bind_returns in H as (w4 & u1 & _ & H).
    apply bind_returns in H as (w5 & u2 & _ & H).
    unfold ret in H. congruence.
Qed.

(** A refused write of the header leaves the body as an exception. *)
Lemma export_body_write_fault (txs : loc) (p : string) (w : world) (e : exn)
      (l0 : loc) (ls : list loc) :
  w_open_fault w p = None ->
  list_at (w_heap w) txs = l0 :: ls ->
  w_write_fault w p (csv_record (keys (dict_at (w_heap w) l0))) = Some e ->
  exists w', export_body txs p w = (w', inl e).
Proof.
  intros Ho Hl Hf. eexists. unfold export_body, with_open. unfold bind at 1.
  rewrite (open_w_ok _ _ Ho).
  unfold bind at 1, read_list at 1. cbn [w_heap set_files]. rewrite Hl.
  unfold bind at 1, read_dict at 1. cbn [w_heap set_files].
  unfold bind at 1, writeheader, writerow. unfold bind at 1.
  rewrite dict_to_list_ok by (rewrite keys_header; apply has_key_self).
  rewrite row_of_header. unfold writer_writerow, file_write.
  cbn [dw_file fieldnames w_write_fault set_files]. now rewrite Hf.
Qed.

(** C1, as amended.  For a non-empty list of N records that all have the
    keys of the first one and whose field names and values hold no CR or
    LF, and a path that can be opened for writing and takes every write,
    [export_transactions] returns [(True, file_path)] and leaves a file of
    exactly N+1 lines: the header, which is the CSV record of the first
    record's field names, then one line per record in list order, each
    the CSV record of its values in header order. *)
Theorem export_writes_header_and_rows
        (w : world) (txs : loc) (file_path : option string) :
  let p := resolved_path w file_path in
  let rs := records_of w txs in
  rs <> [] ->
  share_first_keys rs = true ->
  writable w p ->
  no_line_breaks rs = true ->
  exists w',
    export_transactions txs file_path w = (w', inr (true, p))
    /\ content_of w' p = concat_all (map csv_record (table rs))
    /\ lines (content_of w' p)
       = csv_join (keys (hd [] rs)) :: map (fun r => csv_join (row_of (keys (hd [] rs)) r)) rs
    /\ List.length (lines (content_of w' p)) = S (List.length rs).
Proof.
  intros p rs Hne Hkeys Hw Hplain.
  destruct rs as [|r0 rest] eqn:Hrs; [congruence |].
  eexists. split; [| split; [| split]].
  - apply export_success; [exact Hrs | | exact Hw].
    now apply same_keys_subset.
  - apply content_of_set_files.
  - rewrite content_of_set_files, lines_records by now apply plain_table.
    cbn [table map hd]. now rewrite List.map_map.
  - rewrite content_of_set_files, lines_records by now apply plain_table.
    rewrite length_map. now apply length_table.
Qed.

Lemma export_writes_header_and_rows_witness :
  exists w',
    export_transactions 0 (Some "out.csv") demo_world = (w', inr (true, "out.csv"))
    /\ content_of w' "out.csv" = concat_all (map csv_record (table [lunch; salary]))
    /\ lines (content_of w' "out.csv")
       = [ "Date,Category,Description,Amount,Type";
           "2024-03-07,Food,Lunch,12.50,Expense";
           "2024-03-01,Salary,,2500.00,Income" ]
    /\ List.length (lines (content_of w' "out.csv")) = 3.
Proof.
  apply (export_writes_header_and_rows demo_world 0 (Some "out.csv")).
  - discriminate.
  - reflexivity.
  - split; [reflexivity | intros data; reflexivity].
  - reflexivity.
Defined.

(** C1 as stated fails: a value that holds a line break is written inside
    quotes with the line break kept, so its record takes two lines. *)
Lemma export_line_count_counterexample :
  ~ (forall (w : world) (txs : loc) (file_path : option string),
        let p := resolved_path w file_path in
        let rs := records_of w txs in
        rs <> [] ->
        share_first_keys rs = true ->
        writable w p ->
        exists w',
          export_transactions txs file_path w = (w', inr (true, p))
          /\ List.length (lines (content_of w' p)) = S (List.length rs)).
Proof.
  intros H.
  destruct (H demo_world 1 (Some "out.csv")) as (w' & Hrun & Hlen).
  - discriminate.
  - reflexivity.
  - split; [reflexivity | intros data; reflexivity].
  - assert (Hw' : w' = fst (export_transactions 1 (Some "out.csv") demo_world))
      by now rewrite Hrun.
    subst w'. vm_compute in Hlen. discriminate Hlen.
Qed.

(** C2.  Whatever the list and the path, [export_transactions] returns a
    pair of a flag and a message and raises nothing.  Every exception that
    leaves the body, from the open or from a write, is turned into the flag
    [False] with the message of the clause that catches it; the flag is
    [True] only when the body ran to its end, and then the message is the
    path; the only other failure is the empty list, with its own message.
    An [open] that fails for a missing directory gives the missing
    directory message. *)
Theorem export_never_raises (w : world) (txs : loc) (file_path : option string) :
  let p := resolved_path w file_path in
  (exists w' success message,
      export_transactions txs file_path w = (w', inr (success, message))
      /\ (success = true ->
          message = p /\ export_body txs p w = (w', inr (true, p)))
      /\ (success = false ->
          (message = no_transactions_message
           /\ export_body txs p w = (w', inr (false, no_transactions_message)))
          \/ exists e, export_body txs p w = (w', inl e)
                       /\ message = failure_message p e))
  /\ (forall w' e,
         export_body txs p w = (w', inl e) ->
         export_transactions txs file_path w
         = (w', inr (false, failure_message p e)))
  /\ (forall e,
         w_open_fault w p = Some e ->
         export_transactions txs file_path w
         = (w, inr (false, failure_message p e)))
  /\ (forall e,
         w_open_fault w p = Some e ->
         exc_family_of e = IsFileNotFoundError ->
         export_transactions txs file_path w
         = (w, inr (false, missing_directory_message p))).
Proof.
  intros p. split; [| split; [| split]].
  - rewrite export_transactions_unfold. fold p.
    destruct (export_body txs p w) as [w' [e | [success message]]] eqn:Hbody.
    + exists w', false, (failure_message p e).
      split; [now apply try_export_raises |].
      split; [discriminate | intros _; right; now exists e].
    + exists w', success, message.
      split; [now apply try_export_returns |].
      destruct (export_body_returns _ _ _ _ _ Hbody) as [Hr | Hr];
        injection Hr as -> ->; split; intros; try discriminate; auto.
  - intros w' e Hbody. rewrite export_transactions_unfold. fold p.
    now apply try_export_raises.
  - intros e Ho. rewrite export_transactions_unfold. fold p.
    apply try_export_raises. now apply export_body_open_fault.
  - intros e Ho Hfam. rewrite export_transactions_unfold. fold p.
    rewrite (try_export_raises _ _ e w w) by now apply export_body_open_fault.
    unfold failure_message. now rewrite Hfam.
Qed.

(** C3.  When the body raises [e], by opening or by writing, the call
    returns [False] with the message of the first clause [e] is an
    instance of: missing directory for a [FileNotFoundError], permission
    denied for a [PermissionError], and the class name and text of the
    exception for anything else.  The three messages differ from one
    another. *)
Theorem export_failure_kinds
        (w w' : world) (txs : loc) (file_path : option string) (e : exn) :
  let p := resolved_path w file_path in
  export_body txs p w = (w', inl e) ->
  (exc_family_of e = IsFileNotFoundError ->
     export_transactions txs file_path w
     = (w', inr (false, "Error: The directory for '" +:+ p +:+ "' does not exist.")))
  /\ (exc_family_of e = IsPermissionError ->
        export_transactions txs file_path w
        = (w', inr (false, "Error: Permission denied to write to '" +:+ p +:+ "'.")))
  /\ (exc_family_of e = IsOtherException ->
        export_transactions txs file_path w
        = (w', inr (false, "Error exporting transactions: " +:+ exc_class_name e
                             +:+ ": " +:+ exc_str e)))
  /\ (forall (p1 p2 : string) (e' : exn),
         missing_directory_message p1 <> permission_denied_message p2
         /\ missing_directory_message p1 <> other_error_message e'
         /\ permission_denied_message p2 <> other_error_message e').
Proof.
  intros p Hbody. subst p.
  pose proof (try_export_raises _ (resolved_path w file_path) _ _ _ Hbody) as Hrun.
  rewrite <- export_transactions_unfold in Hrun.
  unfold failure_message in Hrun.
  repeat split; try (intros Hfam; rewrite Hfam in Hrun; exact Hrun);
    intros Heq; simpl in Heq; discriminate Heq.
Qed.

Lemma export_failure_kinds_witness :
  export_transactions 0 (Some "/etc/out.csv") demo_world
  = (demo_world,
     inr (false, "Error: Permission denied to write to '/etc/out.csv'.")).
Proof.
  apply (export_failure_kinds demo_world demo_world 0 (Some "/etc/out.csv")
                              (permission_denied "/etc/out.csv")).
  - reflexivity.
  - reflexivity.
Defined.

(** C4.  For an empty list and a path that opens for writing the call
    returns [False] with the message [No transactions to export]. *)
Theorem export_empty_list_fails
        (w : world) (txs : loc) (file_path : option string) :
  let p := resolved_path w file_path in
  records_of w txs = [] ->
  w_open_fault w p = None ->
  exists w',
    export_transactions txs file_path w
    = (w', inr (false, "No transactions to export")).
Proof.
  intros p Hempty Ho. eexists.
  rewrite export_transactions_unfold. fold p.
  apply try_export_returns. apply export_body_empty; [exact Ho |].
  unfold records_of in Hempty. now apply map_eq_nil in Hempty.
Qed.

Lemma export_empty_list_fails_witness :
  exists w',
    export_transactions 7 (Some "out.csv") demo_world
    = (w', inr (false, "No transactions to export")).
Proof.
  apply (export_empty_list_fails demo_world 7 (Some "out.csv")); reflexivity.
Defined.

(** C5.  Without a path the function works on, and on success returns,
    the name [transactions_export_<YYYYMMDD_HHMMSS>.csv] whose stamp
    reads back as the current date and time. *)
Theorem export_default_filename (w : world) (txs : loc) :
  valid_datetime (w_now w) = true ->
  let name := default_filename (strftime (w_now w)) in
  resolve_path None w = (w, inr name)
  /\ matches_export_pattern name = true
  /\ read_timestamp (stamp_of name) = w_now w
  /\ export_transactions txs None w
     = try_except (export_body txs name) (export_handlers name) w
  /\ (forall w' message,
         export_transactions txs None w = (w', inr (true, message)) ->
         message = name).
Proof.
  intros Hvalid name. repeat split.
  - apply default_filename_matches.
  - unfold name. rewrite stamp_of_default_filename.
    now apply read_timestamp_strftime.
  - intros w' message Hrun.
    rewrite export_transactions_unfold in Hrun.
    change (resolved_path w None) with name in Hrun.
    destruct (export_body txs name w) as [w1 [e | r]] eqn:Hbody.
    + rewrite (try_export_raises _ _ _ _ _ Hbody) in Hrun. discriminate Hrun.
    + rewrite (try_export_returns _ _ _ _ _ Hbody) in Hrun.
      injection Hrun as _ ->.
      destruct (export_body_returns _ _ _ _ _ Hbody) as [Hr | Hr];
        [discriminate Hr | now injection Hr].
Qed.

Lemma export_default_filename_witness :
  resolve_path None demo_world
  = (demo_world, inr "transactions_export_20240307_120005.csv")
  /\ matches_export_pattern "transactions_export_20240307_120005.csv" = true
  /\ read_timestamp (stamp_of "transactions_export_20240307_120005.csv") = noon
  /\ export_transactions 0 None demo_world
     = try_except (export_body 0 "transactions_export_20240307_120005.csv")
                  (export_handlers "transactions_export_20240307_120005.csv")
                  demo_world
  /\ (forall w' message,
         export_transactions 0 None demo_world = (w', inr (true, message)) ->
         message = "transactions_export_20240307_120005.csv").
Proof.
  apply (export_default_filename demo_world 0). reflexivity.
Defined.

(** C7.  On every path the call leaves the caller's objects as they
    were: the list at [transactions] and every dict it refers to. *)
Theorem export_leaves_transactions
        (w : world) (txs : loc) (file_path : option string) :
  let w' := fst (export_transactions txs file_path w) in
  w_heap w' = w_heap w
  /\ list_at (w_heap w') txs = list_at (w_heap w) txs
  /\ (forall l, dict_at (w_heap w') l = dict_at (w_heap w) l)
  /\ records_of w' txs = records_of w txs.
Proof.
  intros w'. subst w'.
  destruct (only_files_export_transactions txs file_path w) as [fs Hfs].
  rewrite Hfs. repeat split.
Qed.

(** C8.  The file is opened before the list is looked at.  With an empty
    list, a path that opens is left holding an empty file although the
    call fails, and a path in a missing directory gives the missing
    directory message, not the one for an empty list. *)
Theorem export_opens_before_checking
        (w : world) (txs : loc) (file_path : option string) :
  let p := resolved_path w file_path in
  records_of w txs = [] ->
  (w_open_fault w p = None ->
     exists w',
       export_transactions txs file_path w = (w', inr (false, no_transactions_message))
       /\ w_files w' = <[p := EmptyString]> (w_files w)
       /\ w_files w' !! p = Some EmptyString)
  /\ (forall e,
         w_open_fault w p = Some e ->
         exc_family_of e = IsFileNotFoundError ->
         export_transactions txs file_path w
         = (w, inr (false, missing_directory_message p))
         /\ missing_directory_message p <> no_transactions_message).
Proof.
  intros p Hempty.
  unfold records_of in Hempty. apply map_eq_nil in Hempty.
  split.
  - intros Ho. eexists. split; [| split].
    + rewrite export_transactions_unfold. fold p.
      apply try_export_returns. now apply export_body_empty.
    + reflexivity.
    + apply lookup_insert_eq.
  - intros e Ho Hfam. split.
    + rewrite export_transactions_unfold. fold p.
      rewrite (try_export_raises _ _ e w w) by now apply export_body_open_fault.
      unfold failure_message. now rewrite Hfam.
    + intros Heq. simpl in Heq. discriminate Heq.
Qed.

Lemma export_opens_before_checking_witness :
  (exists w',
      export_transactions 7 (Some "out.csv") demo_world
      = (w', inr (false, "No transactions to export"))
      /\ w_files w' = <[ "out.csv" := EmptyString ]> (w_files demo_world)
      /\ w_files w' !! "out.csv" = Some EmptyString)
  /\ export_transactions 7 (Some "missing/out.csv") demo_world
     = (demo_world,
        inr (false, "Error: The directory for 'missing/out.csv' does not exist.")).
Proof.
  split.
  - apply (export_opens_before_checking demo_world 7 (Some "out.csv"));
      reflexivity.
  - exact (proj1 (proj2 (export_opens_before_checking
                           demo_world 7 (Some "missing/out.csv") eq_refl)
                        (no_such_directory "missing/out.csv") eq_refl eq_refl)).
Defined.

(** C9.  The empty text as [file_path] is treated as no path at all: the
    call is the same computation as without a path, on the generated name
    [transactions_export_<YYYYMMDD_HHMMSS>.csv]. *)
Theorem export_empty_path_as_omitted (w : world) (txs : loc) :
  export_transactions txs (Some EmptyString) w = export_transactions txs None w
  /\ resolve_path (Some EmptyString) w
     = (w, inr (default_filename (strftime (w_now w))))
  /\ matches_export_pattern (default_filename (strftime (w_now w))) = true
  /\ export_transactions txs (Some EmptyString) w
     = try_except (export_body txs (default_filename (strftime (w_now w))))
                  (export_handlers (default_filename (strftime (w_now w)))) w.
Proof.
  repeat split. apply default_filename_matches.
Qed.

End ExportClaims.

(** ** The properties of the theme toggle *)

Module SettingsClaims.
Import SettingsPanel SettingsSpec Demo.

Lemma toggle_theme_fields (p : panel) :
  let t := other_theme (theme_var p) in
  let p' := toggle_theme p in
  theme_var p' = t
  /\ settings p' = mkSettings t
  /\ stored_settings p' = mkSettings t
  /\ appearance_mode p' = t
  /\ current_theme_label p' = "Current Theme: " +:+ t.
Proof.
  unfold toggle_theme, other_theme.
  destruct (String.eqb (theme_var p) "Light"), (refresh_callback p) eqn:Hcb;
    cbn; rewrite ?Hcb; cbn; repeat split.
Qed.

Lemma other_theme_twice (t : string) : is_theme t -> other_theme (other_theme t) = t.
Proof. intros [-> | ->]; reflexivity. Qed.

Lemma toggle_theme_twice_fields (p : panel) :
  is_theme (theme_var p) ->
  let p'' := toggle_theme (toggle_theme p) in
  theme_var p'' = theme_var p
  /\ settings p'' = mkSettings (theme_var p)
  /\ stored_settings p'' = mkSettings (theme_var p).
Proof.
  intros Hth p''.
  destruct (toggle_theme_fields p) as (Hv & _).
  destruct (toggle_theme_fields (toggle_theme p)) as (Hv' & Hs' & Hst' & _).
  cbv zeta in *. fold p'' in Hv', Hs', Hst'.
  rewrite Hv in Hv', Hs', Hst'.
  rewrite (other_theme_twice _ Hth) in Hv', Hs', Hst'. auto.
Qed.

(** C6.  From a current theme of [Light] or [Dark], [toggle_theme] sets
    the theme to the other of the two and saves it in the settings
    record; toggling twice gives the first theme back. *)
Theorem toggle_theme_switches (p : panel) :
  is_theme (theme_var p) ->
  let p' := toggle_theme p in
  let p'' := toggle_theme p' in
  (theme_var p = "Light" -> theme_var p' = "Dark")
  /\ (theme_var p = "Dark" -> theme_var p' = "Light")
  /\ theme (settings p') = theme_var p'
  /\ stored_settings p' = settings p'
  /\ theme_var p'' = theme_var p
  /\ theme (settings p'') = theme_var p
  /\ theme (stored_settings p'') = theme_var p.
Proof.
  intros Hth p' p''.
  destruct (toggle_theme_fields p) as (Hv & Hs & Hst & _).
  destruct (toggle_theme_twice_fields p Hth) as (Hv' & Hs' & Hst').
  fold p' in Hv, Hs, Hst. cbv zeta in *. fold p' in Hv', Hs', Hst'.
  fold p'' in Hv', Hs', Hst'.
  rewrite Hv', Hs', Hst', Hv, Hs, Hst. cbn [theme].
  repeat split; intros ->; reflexivity.
Qed.

Lemma toggle_theme_switches_witness :
  let p' := toggle_theme light_panel in
  let p'' := toggle_theme p' in
  (theme_var light_panel = "Light" -> theme_var p' = "Dark")
  /\ (theme_var light_panel = "Dark" -> theme_var p' = "Light")
  /\ theme (settings p') = theme_var p'
  /\ stored_settings p' = settings p'
  /\ theme_var p'' = "Light"
  /\ theme (settings p'') = "Light"
  /\ theme (stored_settings p'') = "Light".
Proof.
  apply (toggle_theme_switches light_panel). left. reflexivity.
Defined.

(** C10.  After [toggle_theme] the stored theme is [Light] or [Dark]
    whatever the value before: [Light] becomes [Dark] and every other
    value, such as [light] or the empty text, becomes [Light]. *)
Theorem toggle_theme_range (p : panel) :
  let p' := toggle_theme p in
  is_theme (theme (stored_settings p'))
  /\ theme (settings p') = theme (stored_settings p')
  /\ theme_var p' = theme (stored_settings p')
  /\ (theme_var p = "Light" -> theme (stored_settings p') = "Dark")
  /\ (theme_var p <> "Light" -> theme (stored_settings p') = "Light")
  /\ (theme_var p = "light" -> theme (stored_settings p') = "Light")
  /\ (theme_var p = EmptyString -> theme (stored_settings p') = "Light").
Proof.
  intros p'.
  destruct (toggle_theme_fields p) as (Hv & Hs & Hst & _).
  fold p' in Hv, Hs, Hst. cbv zeta in *.
  rewrite Hv, Hs, Hst. cbn [theme]. unfold other_theme, is_theme.
  destruct (String.eqb (theme_var p) "Light") eqn:Heq.
  - apply String.eqb_eq in Heq.
    repeat split; auto; intros H; congruence.
  - apply String.eqb_neq in Heq.
    repeat split; auto; intros H; congruence.
Qed.

(** A panel as built from the stored row stays in step with it. *)
Lemma toggle_twice_restores_row (row : Settings) (callback : bool) (mode : string) :
  is_theme (theme row) ->
  let p := toggle_theme (toggle_theme (init row callback mode)) in
  settings p = row /\ stored_settings p = row /\ theme_var p = theme row.
Proof.
  intros Hth p.
  destruct (toggle_theme_twice_fields (init row callback mode) Hth)
    as (Hv & Hs & Hst).
  cbv zeta in *. fold p in Hv, Hs, Hst. cbn [init theme_var] in Hv, Hs, Hst.
  destruct row as [t]. cbn [theme] in *. auto.
Qed.

End SettingsClaims.

(** ** Worked runs *)

Module Runs.
Import Text ExportData ExportSpec Demo SettingsPanel.

(** The record typed on two lines is exported as one CSV record that
    spans two lines of the file. *)
Example run_team_lunch :
  let '(w', r) := export_transactions 1 (Some "out.csv") demo_world in
  r = inr (true, "out.csv")
  /\ lines (content_of w' "out.csv")
     = [ "Date,Category,Description,Amount,Type";
         "2024-03-08,Food," +:+ chr quote_char +:+ "Lunch";
         "with team" +:+ chr quote_char +:+ ",48.00,Expense" ].
Proof. vm_compute. split; reflexivity. Qed.

(** A record with a field the header lacks stops the export with a
    [ValueError], after the header and the rows before it were written. *)
Example run_extra_field :
  let '(w', r) := export_transactions 2 (Some "out.csv") demo_world in
  r = inr (false, "Error exporting transactions: ValueError: "
                  +:+ "dict contains fields not in fieldnames: 'Note'")
  /\ lines (content_of w' "out.csv")
     = [ "Date,Category,Description,Amount,Type";
         "2024-03-07,Food,Lunch,12.50,Expense" ].
Proof. vm_compute. split; reflexivity. Qed.

Example run_quoting :
  csv_record ["a,b"; "say " +:+ chr quote_char +:+ "hi" +:+ chr quote_char; "plain"]
  = chr quote_char +:+ "a,b" +:+ chr quote_char +:+ ","
    +:+ chr quote_char +:+ "say " +:+ chr quote_char +:+ chr quote_char +:+ "hi"
    +:+ chr quote_char +:+ chr quote_char +:+ chr quote_char
    +:+ ",plain" +:+ lineterminator.
Proof. reflexivity. Qed.

Example run_lone_empty_field :
  csv_record [EmptyString] = chr quote_char +:+ chr quote_char +:+ lineterminator
  /\ csv_record [] = lineterminator
  /\ csv_record [EmptyString; EmptyString] = "," +:+ lineterminator.
Proof. repeat split. Qed.

Example run_toggle :
  let p := toggle_theme light_panel in
  theme_var p = "Dark"
  /\ stored_settings p = mkSettings "Dark"
  /\ current_theme_label p = "Current Theme: Dark"
  /\ events p = [ SetAppearanceMode "Dark"; RefreshCallback;
                  ShowInfo "Success" "Theme changed to Dark" ].
Proof. repeat split. Qed.

End Runs.

(** ** Further properties of the export *)

Module ExportMore.
Import Text ExportData ExportSpec MoreSpec TextFacts CsvFacts ExportFacts ExportRun
       ExportFrame StampFacts Demo MoreDemo.
Local Open Scope py_scope.

Lemma bind_assoc {A B C} (m : M A) (k1 : A -> M B) (k2 : B -> M C) (w : world) :
  bind (bind m k1) k2 w = bind m (fun a => bind (k1 a) k2) w.
Proof. unfold bind. now destruct (m w) as [w1 [e | a]]. Qed.

Lemma bind_ext {A B} (m : M A) (k1 k2 : A -> M B) (w : world) :
  (forall a w1, k1 a w1 = k2 a w1) -> bind m k1 w = bind m k2 w.
Proof. intros H. unfold bind. destruct (m w) as [w1 [e | a]]; [reflexivity | apply H]. Qed.

Lemma writerows_app (dw : DictWriter) (l1 l2 : list loc) (w : world) :
  writerows dw (l1 ++ l2) w = bind (writerows dw l1) (fun _ => writerows dw l2) w.
Proof.
  revert w. induction l1 as [|l l1 IH]; intros w; [reflexivity |].
  cbn [app writerows]. rewrite bind_assoc.
  apply bind_ext. intros r w1. rewrite bind_assoc.
  apply bind_ext. intros _ w2. apply IH.
Qed.

Lemma wrong_fields_exist (names ks : list string) :
  forallb (has_key names) ks = false ->
  exists k rest, List.filter (fun k => negb (has_key names k)) ks = k :: rest.
Proof.
  induction ks as [|k ks IH]; simpl; intros H; [discriminate |].
  destruct (has_key names k); simpl; eauto.
Qed.

Lemma dict_to_list_extra (f : file) (names : list string) (r : record) (w : world) :
  forallb (has_key names) (keys r) = false ->
  exists detail,
    dict_to_list (mkDictWriter f names) r w
    = (w, inl (ValueError ("dict contains fields not in fieldnames: " +:+ detail))).
Proof.
  intros H. destruct (wrong_fields_exist _ _ H) as (k & rest & Hf).
  unfold dict_to_list. cbn [fieldnames]. rewrite Hf. eexists. reflexivity.
Qed.

Lemma dict_get_missing (r : record) (k d : string) :
  has_key (keys r) k = false -> dict_get r k d = d.
Proof.
  induction r as [|[k' v] r IH]; [reflexivity |].
  unfold has_key in *. cbn [keys map fst existsb dict_get].
  rewrite String.eqb_sym. destruct (String.eqb k' k); [discriminate | exact IH].
Qed.

(** X1.  Records may lack fields of the first record: the export still
    succeeds, and a field a record does not have is written as an empty
    cell. *)
Theorem export_pads_missing_fields
        (w : world) (txs : loc) (file_path : option string)
        (r0 : record) (rest : list record) :
  let p := resolved_path w file_path in
  records_of w txs = r0 :: rest ->
  forallb (subset_keys r0) rest = true ->
  writable w p ->
  exists w',
    export_transactions txs file_path w = (w', inr (true, p))
    /\ content_of w' p
       = concat_all (map csv_record (keys r0 :: map (row_of (keys r0)) (r0 :: rest)))
    /\ (forall r, row_of (keys r0) r
                  = map (fun k => if has_key (keys r) k
                                  then dict_get r k restval else EmptyString)
                        (keys r0)).
Proof.
  intros p Hrs Hsub Hw.
  assert (Hall : forallb (subset_keys r0) (r0 :: rest) = true).
  { cbn [forallb]. rewrite Hsub. unfold subset_keys. now rewrite has_key_self. }
  eexists. split; [| split].
  - exact (export_success txs file_path w r0 rest Hrs Hall Hw).
  - apply content_of_set_files.
  - intros r. unfold row_of. apply map_ext. intros k.
    destruct (has_key (keys r) k) eqn:Hk; [reflexivity |].
    now apply dict_get_missing.
Qed.

Lemma export_pads_missing_fields_witness :
  exists w',
    export_transactions 4 (Some "out.csv") more_world = (w', inr (true, "out.csv"))
    /\ lines (content_of w' "out.csv")
       = [ "Date,Category,Description,Amount,Type";
           "2024-03-07,Food,Lunch,12.50,Expense";
           "2024-03-10,,,7.00,";
           "2024-03-01,Salary,,2500.00,Income" ].
Proof.
  destruct (export_pads_missing_fields more_world 4 (Some "out.csv")
              lunch [short_record; salary])
    as (w' & Hrun & Hcontent & _).
  - reflexivity.
  - reflexivity.
  - split; [reflexivity | intros data; reflexivity].
  - exists w'. split; [exact Hrun |].
    change (resolved_path more_world (Some "out.csv")) with "out.csv" in Hcontent.
    rewrite Hcontent. reflexivity.
Defined.

(** X2.  A record with a field that the first record lacks stops the
    export: the call returns [False] with the [ValueError] of the writer,
    and the file keeps the header and the rows before that record. *)
Theorem export_stops_at_extra_field
        (w : world) (txs : loc) (file_path : option string)
        (r0 : record) (good : list record) (bad : record) (rest : list record) :
  let p := resolved_path w file_path in
  records_of w txs = (r0 :: good) ++ bad :: rest ->
  forallb (subset_keys r0) good = true ->
  subset_keys r0 bad = false ->
  writable w p ->
  exists w' detail,
    export_transactions txs file_path w
    = (w', inr (false, "Error exporting transactions: ValueError: "
                       +:+ "dict contains fields not in fieldnames: " +:+ detail))
    /\ content_of w' p
       = concat_all (map csv_record (keys r0 :: map (row_of (keys r0)) (r0 :: good))).
Proof.
  intros p Hrs Hgood Hbad [Ho Hw].
  unfold records_of in Hrs.
  apply map_eq_app in Hrs as (lsg & lsb & Hls & Hg & Hb).
  destruct lsg as [|l0 lg]; [discriminate |].
  cbn [map] in Hg. injection Hg as Hr0 Hg.
  destruct lsb as [|lb lr]; [discriminate |].
  cbn [map] in Hb. injection Hb as Hbd Hrest.
  set (names := keys r0).
  set (w1 := set_files (<[p := EmptyString]> (w_files w)) w).
  set (c := concat_all (map csv_record (names :: map (row_of names) (r0 :: good)))).
  set (w3 := set_files (<[p := c]> (w_files w)) w).
  destruct (dict_to_list_extra p names bad w3 Hbad) as (detail & Hraise).
  assert (Hbody : export_body txs p w
                  = (w3, inl (ValueError ("dict contains fields not in fieldnames: "
                                          +:+ detail)))).
  { unfold export_body, with_open. unfold bind at 1.
    rewrite (open_w_ok _ _ Ho). fold w1.
    unfold bind at 1, read_list at 1. cbn [w_heap set_files w1].
    rewrite Hls. cbn [app].
    unfold bind at 1, read_dict at 1. cbn [w_heap set_files w1].
    rewrite Hr0. fold names.
    unfold bind at 1.
    rewrite (writeheader_ok p names EmptyString w1)
      by (try apply lookup_insert_eq; exact Hw).
    unfold bind at 1.
    change (l0 :: lg ++ lb :: lr) with ((l0 :: lg) ++ lb :: lr).
    rewrite writerows_app. unfold bind at 1.
    rewrite (writerows_ok p names (l0 :: lg) (EmptyString +:+ csv_record names)).
    - cbn [writerows]. unfold bind at 1, read_dict at 1.
      cbn [w_heap set_files w1]. rewrite Hbd.
      unfold bind at 1, writerow. unfold bind at 1.
      subst w1. cbn [w_files w_heap set_files]. rewrite !insert_insert_eq.
      match goal with
      | |- context [dict_to_list _ bad ?W] => replace W with w3
      end.
      + now rewrite Hraise.
      + subst w3 c. rewrite <- Hg. cbn [map concat_all].
        rewrite Hr0, !List.map_map. reflexivity.
    - apply lookup_insert_eq.
    - exact Hw.
    - cbn [w_heap set_files w1 forallb]. rewrite Hr0.
      apply andb_true_intro. split.
      + apply has_key_self.
      + rewrite <- Hg, forallb_map in Hgood. exact Hgood. }
  exists w3, detail. split.
  - rewrite export_transactions_unfold. fold p.
    rewrite (try_export_raises _ _ _ _ _ Hbody). reflexivity.
  - apply content_of_set_files.
Qed.

Lemma export_stops_at_extra_field_witness :
  exists w' detail,
    export_transactions 5 (Some "out.csv") more_world
    = (w', inr (false, "Error exporting transactions: ValueError: "
                       +:+ "dict contains fields not in fieldnames: " +:+ detail))
    /\ content_of w' "out.csv"
       = concat_all (map csv_record (keys lunch :: map (row_of (keys lunch)) [lunch; salary])).
Proof.
  apply (export_stops_at_extra_field more_world 5 (Some "out.csv")
           lunch [salary] annotated [team_lunch]).
  - reflexivity.
  - reflexivity.
  - reflexivity.
  - split; [reflexivity | intros data; reflexivity].
Defined.

(** *** Files other than the target *)

Lemma keeps_others_ret (p : string) {A} (a : A) : keeps_others p (ret a).
Proof. now intros w q _. Qed.

Lemma keeps_others_raise (p : string) {A} (e : exn) : keeps_others p (@raise A e).
Proof. now intros w q _. Qed.

Lemma keeps_others_bind (p : string) {A B} (m : M A) (k : A -> M B) :
  keeps_others p m -> (forall a, keeps_others p (k a)) -> keeps_others p (bind m k).
Proof.
  intros Hm Hk w q Hq. unfold bind.
  specialize (Hm w q Hq). destruct (m w) as [w1 [e | a]]; [exact Hm |].
  cbn [fst] in Hm. rewrite <- Hm. now apply Hk.
Qed.

Lemma keeps_others_file_write (p data : string) : keeps_others p (file_write p data).
Proof.
  intros w q Hq. unfold file_write.
  destruct (w_write_fault w p data); [reflexivity |].
  cbn [fst w_files set_files]. now apply lookup_insert_ne.
Qed.

Lemma keeps_others_writerow (p : string) (names : list string) (r : record) :
  keeps_others p (writerow (mkDictWriter p names) r).
Proof.
  unfold writerow, writer_writerow. apply keeps_others_bind.
  - unfold dict_to_list. destruct (List.filter _ _);
      [apply keeps_others_ret | apply keeps_others_raise].
  - intros fields. apply keeps_others_file_write.
Qed.

Lemma keeps_others_writerows (p : string) (names : list string) (ls : list loc) :
  keeps_others p (writerows (mkDictWriter p names) ls).
Proof.
  induction ls as [|l ls IH]; cbn [writerows]; [apply keeps_others_ret |].
  apply keeps_others_bind; [now intros w q _ | intros r].
  apply keeps_others_bind; [apply keeps_others_writerow | intros _; exact IH].
Qed.

Lemma keeps_others_export_body (txs : loc) (p : string) :
  keeps_others p (export_body txs p).
Proof.
  intros w q Hq. unfold export_body, with_open. unfold bind at 1. unfold open_w.
  destruct (w_open_fault w p); [reflexivity |].
  match goal with
  | |- w_files (fst (?body ?w1)) !! q = _ =>
      assert (Hbody : keeps_others p body); [| rewrite (Hbody w1 q Hq)]
  end.
  - apply keeps_others_bind; [now intros w0 q0 _ | intros [|first rest]].
    + apply keeps_others_ret.
    + apply keeps_others_bind; [now intros w0 q0 _ | intros r0].
      apply keeps_others_bind; [apply keeps_others_writerow | intros _].
      apply keeps_others_bind; [apply keeps_others_writerows | intros _].
      apply keeps_others_ret.
  - cbn [w_files set_files]. now apply lookup_insert_ne.
Qed.

Lemma try_export_world (body : M (bool * string)) (p : string) (w : world) :
  fst (try_except body (export_handlers p) w) = fst (body w).
Proof.
  unfold try_except. destruct (body w) as [w1 [e | r]]; [| reflexivity].
  now rewrite dispatch_export_handlers.
Qed.

Lemma try_export_true (body : M (bool * string)) (p m : string) (w : world) :
  snd (try_except body (export_handlers p) w) = inr (true, m) ->
  snd (body w) = inr (true, m).
Proof.
  unfold try_except. destruct (body w) as [w1 [e | r]]; [| easy].
  rewrite dispatch_export_handlers. discriminate.
Qed.

(** X3.  The call touches no file but the one it exports to, and not even
    that one when the file cannot be opened: then the world is left exactly
    as it was. *)
Theorem export_touches_only_target
        (w : world) (txs : loc) (file_path : option string) :
  let p := resolved_path w file_path in
  let w' := fst (export_transactions txs file_path w) in
  (forall q, q <> p -> w_files w' !! q = w_files w !! q)
  /\ (forall e, w_open_fault w p = Some e -> w' = w).
Proof.
  intros p w'. subst w'. rewrite export_transactions_unfold. fold p.
  rewrite try_export_world. split.
  - intros q Hq. now apply keeps_others_export_body.
  - intros e Ho. now rewrite (export_body_open_fault _ _ _ _ Ho).
Qed.

(** X4.  Exporting again to the same given path overwrites the file: the
    second call gives the same result and leaves the same world as the
    first. *)
Theorem export_again_overwrites
        (w : world) (txs : loc) (file_path : option string)
        (r0 : record) (rest : list record) :
  let p := resolved_path w file_path in
  truthy file_path = true ->
  records_of w txs = r0 :: rest ->
  forallb (subset_keys r0) rest = true ->
  writable w p ->
  let first := export_transactions txs file_path w in
  export_transactions txs file_path (fst first) = first.
Proof.
  intros p Htruthy Hrs Hsub Hw.
  assert (Hall : forallb (subset_keys r0) (r0 :: rest) = true).
  { cbn [forallb]. rewrite Hsub. unfold subset_keys. now rewrite has_key_self. }
  cbv zeta. rewrite (export_success txs file_path w r0 rest Hrs Hall Hw).
  cbn [fst]. fold p.
  set (w1 := set_files _ w).
  rewrite (export_success txs file_path w1 r0 rest).
  - unfold w1 at 2. cbn [w_files set_files].
    replace (resolved_path w1 file_path) with p by reflexivity.
    now rewrite insert_insert_eq.
  - exact Hrs.
  - exact Hall.
  - exact Hw.
Qed.

Lemma export_again_overwrites_witness :
  export_transactions 0 (Some "out.csv")
    (fst (export_transactions 0 (Some "out.csv") more_world))
  = export_transactions 0 (Some "out.csv") more_world.
Proof.
  apply (export_again_overwrites more_world 0 (Some "out.csv") lunch [salary]).
  - reflexivity.
  - reflexivity.
  - reflexivity.
  - split; [reflexivity | intros data; reflexivity].
Defined.

(** *** Whole records only *)

Lemma insert_same_content (fs : gmap string string) (f c : string) :
  fs !! f = Some c -> <[f := c +:+ EmptyString]> fs = fs.
Proof. intros H. rewrite append_nil_r. now apply insert_id. Qed.

(** When no write is refused, however [writerows] ends, the file has
    grown by the records of the first [k] rows, for some [k], and by all
    rows when it returns. *)
Lemma writerows_prefix (f : file) (names : list string) (ls : list loc) :
  forall (c : string) (w w' : world) (out : exn + unit),
    w_files w !! f = Some c ->
    (forall data, w_write_fault w f data = None) ->
    writerows (mkDictWriter f names) ls w = (w', out) ->
    exists k,
      k <= List.length ls
      /\ w_files w'
         = <[f := c +:+ concat_all
                   (map csv_record
                        (firstn k (map (fun l => row_of names (dict_at (w_heap w) l)) ls)))]>
             (w_files w)
      /\ (out = inr tt -> k = List.length ls).
Proof.
  induction ls as [|l ls IH]; intros c w w' out Hc Hw Hrun.
  - injection Hrun as <- <-.
    exists 0. split; [reflexivity |]. split; [| reflexivity].
    cbn [firstn map concat_all]. symmetry. now apply insert_same_content.
  - cbn [writerows] in Hrun. unfold bind, read_dict, writerow, bind in Hrun.
    unfold dict_to_list in Hrun. cbn [fieldnames dw_file] in Hrun.
    destruct (List.filter _ (keys (dict_at (w_heap w) l))) as [|k0 wrong].
    + unfold ret, writer_writerow, file_write in Hrun. rewrite Hc, Hw in Hrun.
      cbn [default] in Hrun.
      fold (row_of names (dict_at (w_heap w) l)) in Hrun.
      eapply IH in Hrun as (k & Hk & Hfiles & Hdone);
        [| apply lookup_insert_eq | exact Hw].
      exists (S k). split; [cbn [List.length]; lia |]. split.
      * rewrite Hfiles. cbn [w_files w_heap set_files].
        rewrite insert_insert_eq. cbn [map firstn concat_all].
        now rewrite append_assoc.
      * intros Hret. cbn [List.length]. f_equal. now apply Hdone.
    + unfold raise in Hrun. injection Hrun as <- <-.
      exists 0. split; [cbn [List.length]; lia |]. split; [| discriminate].
      cbn [firstn map concat_all]. symmetry. now apply insert_same_content.
Qed.

(** X5.  On a path that can be opened for writing and takes every write,
    whatever the list holds (nothing, records that lack fields, a record
    with an extra field), the file ends up holding whole CSV records only:
    the first [k] of the header and rows, for some [k], and all of them
    when the call succeeds. *)
Theorem export_leaves_whole_records
        (w : world) (txs : loc) (file_path : option string) :
  let p := resolved_path w file_path in
  let rs := records_of w txs in
  let run := export_transactions txs file_path w in
  writable w p ->
  exists k,
    k <= List.length (table rs)
    /\ content_of (fst run) p = concat_all (map csv_record (firstn k (table rs)))
    /\ (forall m, snd run = inr (true, m) -> k = List.length (table rs)).
Proof.
  intros p rs run [Ho Hwr]. subst run rs.
  rewrite export_transactions_unfold. fold p.
  rewrite try_export_world.
  unfold records_of.
  destruct (list_at (w_heap w) txs) as [|l0 ls] eqn:Hl.
  - exists 0. split; [reflexivity |]. split.
    + rewrite (export_body_empty _ _ _ Ho Hl). cbn [fst].
      now rewrite content_of_set_files.
    + intros m Hrun. apply try_export_true in Hrun.
      rewrite (export_body_empty _ _ _ Ho Hl) in Hrun. discriminate Hrun.
  - cbn [map table]. set (names := keys (dict_at (w_heap w) l0)).
    set (w1 := set_files (<[p := EmptyString]> (w_files w)) w).
    assert (Hbody : export_body txs p w
                    = bind (writeheader (mkDictWriter p names))
                           (fun _ => bind (writerows (mkDictWriter p names) (l0 :: ls))
                                          (fun _ => ret (true, p))) w1).
    { unfold export_body, with_open. unfold bind at 1.
      rewrite (open_w_ok _ _ Ho). fold w1.
      unfold bind at 1, read_list at 1. cbn [w_heap set_files w1]. rewrite Hl.
      unfold bind at 1, read_dict at 1. reflexivity. }
    unfold bind at 1 in Hbody.
    rewrite (writeheader_ok p names EmptyString w1) in Hbody
      by (try apply lookup_insert_eq; exact Hwr).
    set (w2 := set_files _ w1) in Hbody. unfold bind in Hbody.
    destruct (writerows (mkDictWriter p names) (l0 :: ls) w2) as [w3 out] eqn:Hrows.
    destruct (writerows_prefix p names (l0 :: ls) (EmptyString +:+ csv_record names)
                               w2 w3 out (lookup_insert_eq _ _ _) Hwr Hrows)
      as (k & Hk & Hfiles & Hdone).
    exists (S k).
    split; [cbn [List.length map] in *; rewrite ?length_map; lia |].
    assert (Hw : w_files (fst (export_body txs p w)) = w_files w3).
    { rewrite Hbody. now destruct out. }
    split.
    + unfold content_of. rewrite Hw, Hfiles, lookup_insert_eq. cbn [default].
      cbn [firstn map concat_all]. unfold w2, w1. cbn [w_heap set_files].
      now rewrite List.map_map.
    + intros m Hrun. cbn [List.length map]. rewrite ?length_map. f_equal.
      cbn [List.length] in Hdone. apply Hdone.
      apply try_export_true in Hrun. rewrite Hbody in Hrun.
      destruct out as [e | []]; [discriminate Hrun | reflexivity].
Qed.

Lemma export_leaves_whole_records_witness :
  exists k,
    k <= List.length (table (records_of more_world 5))
    /\ content_of (fst (export_transactions 5 (Some "out.csv") more_world)) "out.csv"
       = concat_all (map csv_record (firstn k (table (records_of more_world 5))))
    /\ (forall m,
           snd (export_transactions 5 (Some "out.csv") more_world) = inr (true, m) ->
           k = List.length (table (records_of more_world 5))).
Proof.
  apply (export_leaves_whole_records more_world 5 (Some "out.csv")).
  split; [reflexivity | intros data; reflexivity].
Defined.

(** X6.  Without a path, exports started at different dates or times work
    on different files. *)
Theorem default_names_differ (w1 w2 : world) :
  valid_datetime (w_now w1) = true ->
  valid_datetime (w_now w2) = true ->
  w_now w1 <> w_now w2 ->
  snd (resolve_path None w1) <> snd (resolve_path None w2).
Proof.
  intros H1 H2 Hne Heq. apply Hne.
  rewrite !resolve_path_run in Heq. cbn [snd] in Heq.
  assert (Hn : default_filename (strftime (w_now w1))
               = default_filename (strftime (w_now w2))).
  { change (resolved_path w1 None = resolved_path w2 None). congruence. }
  apply (f_equal (fun name => read_timestamp (stamp_of name))) in Hn.
  rewrite !stamp_of_default_filename in Hn.
  now rewrite !read_timestamp_strftime in Hn.
Qed.

Lemma default_names_differ_witness :
  snd (resolve_path None more_world)
  <> snd (resolve_path None
            (mkWorld (mkDatetime 2024 3 7 12 0 6) more_heap ∅ demo_open_fault
                     (fun _ _ => None))).
Proof.
  apply default_names_differ; [reflexivity | reflexivity | discriminate].
Defined.

End ExportMore.

(** ** Further properties of the theme toggle *)

Module SettingsMore.
Import SettingsPanel SettingsSpec MoreSpec SettingsClaims Demo MoreDemo.

Lemma toggle_theme_callback (p : panel) :
  refresh_callback (toggle_theme p) = refresh_callback p.
Proof.
  unfold toggle_theme.
  destruct (String.eqb (theme_var p) "Light"), (refresh_callback p) eqn:Hcb;
    cbn; rewrite ?Hcb; cbn; rewrite ?Hcb; reflexivity.
Qed.

Lemma toggles_callback (n : nat) (p : panel) :
  refresh_callback (toggles n p) = refresh_callback p.
Proof.
  induction n as [|n IH]; [reflexivity |].
  cbn [toggles]. now rewrite toggle_theme_callback.
Qed.

Lemma toggle_theme_events (p : panel) :
  let t := other_theme (theme_var p) in
  events (toggle_theme p)
  = events p ++ [SetAppearanceMode t]
      ++ (if refresh_callback p then [RefreshCallback] else [])
      ++ [ShowInfo "Success" ("Theme changed to " +:+ t)].
Proof.
  unfold toggle_theme, other_theme.
  destruct (String.eqb (theme_var p) "Light"), (refresh_callback p) eqn:Hcb;
    cbn; rewrite ?Hcb; cbn; now rewrite <- ?app_assoc.
Qed.

Lemma other_theme_is_theme (t : string) : is_theme (other_theme t).
Proof. unfold other_theme, is_theme. destruct (String.eqb t "Light"); auto. Qed.

Lemma other_theme_differs (t : string) : is_theme t -> other_theme t <> t.
Proof. intros [-> | ->]; discriminate. Qed.

Lemma theme_var_toggles_succ (n : nat) (p : panel) :
  theme_var (toggles (S n) p) = other_theme (theme_var (toggles n p)).
Proof. cbn [toggles]. now destruct (toggle_theme_fields (toggles n p)) as (H & _). Qed.

(** X7.  A panel built from the stored row and toggled any number of
    times stays in step: the variable behind the button, the settings
    record in memory, the stored row and the label all show the same
    theme, and the callback stays as given. *)
Theorem toggles_keep_panel_in_step
        (row : Settings) (callback : bool) (mode : string) (n : nat) :
  let p := toggles n (init row callback mode) in
  theme (settings p) = theme_var p
  /\ stored_settings p = settings p
  /\ current_theme_label p = "Current Theme: " +:+ theme_var p
  /\ refresh_callback p = callback
  /\ (1 <= n -> appearance_mode p = theme_var p).
Proof.
  induction n as [|n IH].
  - cbn. repeat split. intros H. inversion H.
  - cbv zeta in *. cbn [toggles].
    destruct (toggle_theme_fields (toggles n (init row callback mode)))
      as (Hv & Hs & Hst & Ha & Hl).
    cbv zeta in *. destruct IH as (_ & _ & _ & Hcb & _).
    rewrite Hv, Hs, Hst, Ha, Hl, toggle_theme_callback. cbn [theme].
    repeat split. exact Hcb.
Qed.

(** X8.  From a theme of [Light] or [Dark], an even number of toggles
    gives the same theme and an odd number the other one. *)
Theorem toggles_parity (p : panel) (n : nat) :
  is_theme (theme_var p) ->
  theme_var (toggles n p)
  = if Nat.even n then theme_var p else other_theme (theme_var p).
Proof.
  intros Hth. induction n as [|n IH]; [reflexivity |].
  rewrite theme_var_toggles_succ, IH, Nat.even_succ. unfold Nat.odd.
  destruct (Nat.even n); cbn [negb]; [reflexivity |].
  now apply other_theme_twice.
Qed.

Lemma toggles_parity_witness :
  theme_var (toggles 5 dark_panel) = "Light"
  /\ theme_var (toggles 6 dark_panel) = "Dark".
Proof.
  split.
  - apply (toggles_parity dark_panel 5). right. reflexivity.
  - apply (toggles_parity dark_panel 6). right. reflexivity.
Defined.

(** X9.  Whatever value the panel starts from, also one that is neither
    [Light] nor [Dark], from the first toggle on the theme is one of the
    two, every toggle changes it, and two toggles give it back. *)
Theorem toggles_alternate (p : panel) (n : nat) :
  1 <= n ->
  is_theme (theme_var (toggles n p))
  /\ theme_var (toggles (S n) p) <> theme_var (toggles n p)
  /\ theme_var (toggles (S (S n)) p) = theme_var (toggles n p).
Proof.
  intros Hn. destruct n as [|n]; [inversion Hn |].
  assert (Hth : is_theme (theme_var (toggles (S n) p))).
  { rewrite theme_var_toggles_succ. apply other_theme_is_theme. }
  split; [exact Hth |]. split.
  - rewrite (theme_var_toggles_succ (S n)). now apply other_theme_differs.
  - rewrite (theme_var_toggles_succ (S (S n))), (theme_var_toggles_succ (S n)).
    now apply other_theme_twice.
Qed.

Lemma toggles_alternate_witness :
  is_theme (theme_var (toggles 1 system_panel))
  /\ theme_var (toggles 2 system_panel) <> theme_var (toggles 1 system_panel)
  /\ theme_var (toggles 3 system_panel) = theme_var (toggles 1 system_panel).
Proof.
  apply (toggles_alternate system_panel 1). apply le_n.
Defined.

Lemma count_app (f : event -> bool) (a b : list event) :
  count f (a ++ b) = count f a + count f b.
Proof. unfold count. now rewrite List.filter_app, length_app. Qed.

(** X10.  Each toggle tells the user once and calls the refresh callback
    once when one was given, never otherwise: after [n] toggles of a new
    panel there are [n] confirmation boxes and [n] or no callback calls. *)
Theorem toggles_notify_once_each
        (row : Settings) (callback : bool) (mode : string) (n : nat) :
  let p := toggles n (init row callback mode) in
  count is_show_info (events p) = n
  /\ count is_refresh (events p) = (if callback then n else 0).
Proof.
  induction n as [|n IH].
  - cbn. now destruct callback.
  - cbv zeta in *. cbn [toggles].
    pose proof (toggles_callback n (init row callback mode)) as Hcb.
    cbn [init refresh_callback] in Hcb.
    rewrite toggle_theme_events. cbv zeta. rewrite Hcb, !count_app.
    destruct IH as [IHi IHr]. rewrite IHi, IHr.
    destruct callback; cbn; split; lia.
Qed.

End SettingsMore.

(** ** Properties of the export button *)

Module PanelExportMore.
Import Text ExportData ExportSpec MoreSpec TextFacts ExportFacts ExportRun
       ExportMore SettingsPanelExport Demo MoreDemo.

Section Amount.

Variable amount : Type.
Variable format_amount : amount -> string.

Abbreviation row := (history_row amount).
Abbreviation transaction_of := (SettingsPanelExport.transaction_of format_amount).
Abbreviation cells := (SettingsPanelExport.cells format_amount).
Abbreviation append_transactions :=
  (SettingsPanelExport.append_transactions format_amount).
Abbreviation click := (SettingsPanelExport.export_transactions format_amount).

(** The list built by the loop refers to the dicts of the rows, in order. *)
Lemma append_transactions_records (rows : list row) (txs : loc) :
  forall (next : loc) (h h' : heap) (next' : loc),
    append_transactions rows txs next h = (h', next') ->
    Forall (fun l => l < next) (list_at h txs) ->
    map (dict_at h') (list_at h' txs)
    = map (dict_at h) (list_at h txs) ++ map transaction_of rows.
Proof.
  induction rows as [|r rows IH]; intros next h h' next' Hrun Hfresh.
  - injection Hrun as <- _. cbn [map]. now rewrite app_nil_r.
  - cbn [SettingsPanelExport.append_transactions] in Hrun.
    apply IH in Hrun.
    + rewrite Hrun. cbn [list_at dict_at store_list store_dict].
      rewrite Nat.eqb_refl, map_app. cbn [map]. rewrite Nat.eqb_refl.
      rewrite <- app_assoc. cbn [app]. f_equal.
      apply map_ext_in. intros l Hl.
      rewrite List.Forall_forall in Hfresh. specialize (Hfresh l Hl).
      destruct (Nat.eqb l next) eqn:Heq; [| reflexivity].
      apply Nat.eqb_eq in Heq. lia.
    + cbn [list_at dict_at store_list store_dict]. rewrite Nat.eqb_refl.
      apply List.Forall_app. split.
      * eapply List.Forall_impl; [| exact Hfresh]. cbn. intros l Hl. lia.
      * constructor; [lia | constructor].
Qed.

Lemma built_records (rows : list row) (txs : loc) (w : world) (h : heap) (next : loc) :
  append_transactions rows txs (S txs) (store_list txs [] (w_heap w)) = (h, next) ->
  records_of (set_heap h w) txs = map transaction_of rows.
Proof.
  intros Hrun. unfold records_of. cbn [w_heap set_heap].
  rewrite (append_transactions_records _ _ _ _ _ _ Hrun).
  - cbn [list_at store_list]. now rewrite Nat.eqb_refl.
  - cbn [list_at store_list]. rewrite Nat.eqb_refl. constructor.
Qed.

Lemma transactions_share_keys (r0 : row) (rows : list row) :
  forallb (subset_keys (transaction_of r0)) (map transaction_of rows) = true.
Proof.
  rewrite forallb_map. apply forallb_forall. intros r _. reflexivity.
Qed.

Lemma table_of_transactions (r0 : row) (rows : list row) :
  table (map transaction_of (r0 :: rows)) = header :: map cells (r0 :: rows).
Proof.
  cbn [map table]. f_equal. f_equal.
  rewrite List.map_map. apply map_ext. intros r. reflexivity.
Qed.

Lemma truthy_path (p : string) : p <> EmptyString -> is_empty p = false.
Proof. destruct p; [congruence | reflexivity]. Qed.

(** X11.  With a history of one row or more and a path picked in the
    dialog that can be written, the button leaves at that path the header
    [Date,Category,Description,Amount,Type] and one CSV record per row of
    the history, in order, and tells the user where.  The dicts it builds
    all have the same five keys, so the writer never refuses one. *)
Theorem button_exports_history (d : desktop amount) (rows : list row) (p : string) :
  d_history d = inr rows ->
  rows <> [] ->
  d_answer d = p ->
  p <> EmptyString ->
  writable (d_world d) p ->
  let d' := click d in
  content_of (d_world d') p = concat_all (map csv_record (header :: map cells rows))
  /\ d_shown d'
     = d_shown d ++ [ SaveAsDialog;
                      InfoBox "Export Successful"
                              ("Transactions exported to:" +:+ chr LF +:+ p) ].
Proof.
  intros Hhist Hne Hans Hp Hw.
  destruct rows as [|r0 rows]; [congruence |].
  unfold SettingsPanelExport.export_transactions. rewrite Hhist.
  destruct (append_transactions (r0 :: rows) (d_next d) (S (d_next d))
              (store_list (d_next d) [] (w_heap (d_world d)))) as [h next] eqn:Hbuild.
  cbn [d_answer show set_next set_world d_world]. rewrite Hans, (truthy_path _ Hp).
  pose proof (built_records _ _ (d_world d) _ _ Hbuild) as Hrecords.
  cbn [map] in Hrecords.
  rewrite (export_success (d_next d) (Some p) (set_heap h (d_world d))
             (transaction_of r0) (map transaction_of rows) Hrecords).
  - replace (resolved_path (set_heap h (d_world d)) (Some p)) with p
      by (unfold resolved_path, truthy; now rewrite (truthy_path _ Hp)).
    cbn [d_world show set_world d_shown].
    rewrite content_of_set_files. split.
    + f_equal. f_equal. apply (table_of_transactions r0 rows).
    + now rewrite <- app_assoc.
  - apply (transactions_share_keys r0 (r0 :: rows)).
  - replace (resolved_path (set_heap h (d_world d)) (Some p)) with p
      by (unfold resolved_path, truthy; now rewrite (truthy_path _ Hp)).
    exact Hw.
Qed.

(** X12.  When the picked path cannot be opened, the button shows the
    message of the export in an error box and leaves all files as they
    were. *)
Theorem button_reports_open_failure
        (d : desktop amount) (rows : list row) (p : string) (e : exn) :
  d_history d = inr rows ->
  rows <> [] ->
  d_answer d = p ->
  p <> EmptyString ->
  w_open_fault (d_world d) p = Some e ->
  let d' := click d in
  d_shown d' = d_shown d ++ [SaveAsDialog; ErrorBox "Export Failed" (failure_message p e)]
  /\ w_files (d_world d') = w_files (d_world d).
Proof.
  intros Hhist Hne Hans Hp Ho.
  destruct rows as [|r0 rows]; [congruence |].
  unfold SettingsPanelExport.export_transactions. rewrite Hhist.
  destruct (append_transactions (r0 :: rows) (d_next d) (S (d_next d))
              (store_list (d_next d) [] (w_heap (d_world d)))) as [h next].
  cbn [d_answer show set_next set_world d_world]. rewrite Hans, (truthy_path _ Hp).
  rewrite export_transactions_unfold.
  replace (resolved_path (set_heap h (d_world d)) (Some p)) with p
    by (unfold resolved_path, truthy; now rewrite (truthy_path _ Hp)).
  rewrite (try_export_raises _ p e (set_heap h (d_world d)) (set_heap h (d_world d)))
    by now apply export_body_open_fault.
  cbn [d_world d_shown show set_world w_files set_heap].
  split; [now rewrite <- app_assoc | reflexivity].
Qed.

(** X13.  The button changes no file but the one at the picked path, and
    no file at all when the history cannot be read, when it is empty, or
    when the dialog is cancelled. *)
Theorem button_touches_only_picked_path (d : desktop amount) :
  let d' := click d in
  (forall q, q <> d_answer d ->
             w_files (d_world d') !! q = w_files (d_world d) !! q)
  /\ (d_answer d = EmptyString -> w_files (d_world d') = w_files (d_world d))
  /\ (forall e, d_history d = inl e -> d_world d' = d_world d)
  /\ (d_history d = inr [] -> d_world d' = d_world d).
Proof.
  unfold SettingsPanelExport.export_transactions.
  destruct (d_history d) as [e | [|r0 rows]].
  - repeat split.
  - repeat split.
  - destruct (append_transactions (r0 :: rows) (d_next d) (S (d_next d))
                (store_list (d_next d) [] (w_heap (d_world d)))) as [h next].
    cbn [d_answer show set_next set_world d_world].
    destruct (is_empty (d_answer d)) eqn:Hempty.
    + repeat split; discriminate.
    + assert (Hp : resolved_path (set_heap h (d_world d)) (Some (d_answer d)) = d_answer d)
        by (unfold resolved_path, truthy; now rewrite Hempty).
      assert (Hworld : forall q, q <> d_answer d ->
                 w_files (fst (ExportData.export_transactions
                                 (d_next d) (Some (d_answer d)) (set_heap h (d_world d)))) !! q
                 = w_files (d_world d) !! q).
      { intros q Hq. rewrite export_transactions_unfold, try_export_world, Hp.
        now rewrite (keeps_others_export_body (d_next d) (d_answer d) _ q Hq). }
      destruct (ExportData.export_transactions
                  (d_next d) (Some (d_answer d)) (set_heap h (d_world d)))
        as [w' [e | [[|] m]]];
        cbn [fst] in Hworld; cbn [d_world show set_world export_error];
        (split; [exact Hworld |]);
        (split; [intros Hnone; rewrite Hnone in Hempty; discriminate Hempty |]);
        split; discriminate.
Qed.

(** X14.  A click always ends with exactly one message box, except when
    the user cancels the dialog: then nothing is shown after it. *)
Theorem button_answers_once (d : desktop amount) :
  let d' := click d in
  exists asked boxes,
    d_shown d' = d_shown d ++ asked ++ boxes
    /\ (asked = [] \/ asked = [SaveAsDialog])
    /\ forallb is_message_box boxes = true
    /\ List.length boxes = (if cancelled d then 0 else 1).
Proof.
  unfold SettingsPanelExport.export_transactions, cancelled.
  destruct (d_history d) as [e | [|r0 rows]].
  - exists [], [ErrorBox "Export Error" ("An error occurred while exporting: " +:+ exc_str e)].
    repeat split; auto.
  - exists [], [InfoBox "Export Transactions" "No transactions to export"].
    repeat split; auto.
  - destruct (append_transactions (r0 :: rows) (d_next d) (S (d_next d))
                (store_list (d_next d) [] (w_heap (d_world d)))) as [h next].
    cbn [d_answer show set_next set_world d_world].
    destruct (is_empty (d_answer d)).
    + exists [SaveAsDialog], []. repeat split; auto.
    + destruct (ExportData.export_transactions
                  (d_next d) (Some (d_answer d)) (set_heap h (d_world d)))
        as [w' [e | [[|] m]]];
        cbn [d_shown show set_world export_error];
        eexists [SaveAsDialog], [_]; rewrite <- app_assoc;
        repeat split; auto.
Qed.

End Amount.

Lemma button_reports_open_failure_witness :
  let d' := SettingsPanelExport.export_transactions (fun s : string => s)
              (demo_desktop "missing/out.csv") in
  d_shown d'
  = [ SaveAsDialog;
      ErrorBox "Export Failed"
               "Error: The directory for 'missing/out.csv' does not exist." ]
  /\ w_files (d_world d') = w_files more_world.
Proof.
  apply (button_reports_open_failure string (fun s : string => s)
           (demo_desktop "missing/out.csv") history "missing/out.csv"
           (no_such_directory "missing/out.csv")).
  - reflexivity.
  - discriminate.
  - reflexivity.
  - discriminate.
  - reflexivity.
Defined.

Lemma button_exports_history_witness :
  let d' := SettingsPanelExport.export_transactions (fun s => s)
              (demo_desktop "out.csv") in
  lines (content_of (d_world d') "out.csv")
  = [ "Date,Category,Description,Amount,Type";
      "2024-03-07,Food,Lunch,12.50,Expense";
      "2024-03-01,Salary,,2500.00,Income" ]
  /\ d_shown d'
     = [ SaveAsDialog;
         InfoBox "Export Successful"
                 ("Transactions exported to:" +:+ chr LF +:+ "out.csv") ].
Proof.
  destruct (button_exports_history string (fun s : string => s) (demo_desktop "out.csv")
              history "out.csv")
    as [Hcontent Hshown].
  - reflexivity.
  - discriminate.
  - reflexivity.
  - discriminate.
  - split; [reflexivity | intros data; reflexivity].
  - cbv zeta. split.
    + rewrite Hcontent. reflexivity.
    + exact Hshown.
Defined.

End PanelExportMore.
